(** * obdecry: the upload -> notify -> obfuscate -> respond pipeline of main.py

    A shallow embedding of [send_to_webhook], [obfuscate_script] and the
    [/obfuscate] handler of [src/main.py], with the text codec the handler
    calls ([bytes.decode("utf-8", errors="replace")] and [str.encode("utf-8")]).

    - A Python [str] is a list of code points ([N]); [bytes] is a list of
      [Byte.byte].
    - The remote services are a [world]: a function from the request posted to
      what comes back (a response, or an exception raised by the client
      library).
    - Awaited calls run in a small monad [M] that carries the list of outbound
      events and either a value or a raised exception.  [try: ... except
      Exception:] is [try_except]; the exceptions of the model are all
      subclasses of [Exception].
    - [str.lower], [json.dumps] and [str(e)] belong to the interpreter; they
      are the fields of a [runtime] the pipeline is parameterised by.
    - Calls to the logger have no effect on what is returned or sent and are
      left out. *)

From Stdlib Require Import List NArith ZArith Bool Lia String Ascii.
From Stdlib Require Import Init.Byte.
From Stdlib Require Floats.SpecFloat.
Import ListNotations.

Local Open Scope N_scope.

(** ** Text and bytes *)

Module Text.

(** A Python [str]: a sequence of code points. *)
Definition str : Type := list N.
Definition bytes : Type := list byte.

(** An ASCII literal of the source, as a [str]. *)
Definition lit (s : string) : str := map N_of_ascii (list_ascii_of_string s).

Definition byte_of_N (n : N) : byte :=
  match Byte.of_N n with
  | Some b => b
  | None => x00
  end.

Definition str_eqb (a b : str) : bool :=
  if list_eq_dec N.eq_dec a b then true else false.

(** [s.endswith(suffix)] *)
Definition endswith (s suffix : str) : bool :=
  str_eqb (skipn (List.length s - List.length suffix)%nat s) suffix
  && (List.length suffix <=? List.length s)%nat.

(** A code point in the surrogate range U+D800..U+DFFF. *)
Definition is_surrogate (c : N) : bool := (0xD800 <=? c) && (c <=? 0xDFFF).

(** What a [str] built by a decoder holds: Unicode scalar values. *)
Definition is_scalar (c : N) : bool := (c <? 0x110000) && negb (is_surrogate c).

(** The bytes of one code point, as the UTF-8 encoder writes them. *)
Definition encode_cp (c : N) : bytes :=
  if c <? 0x80 then [byte_of_N c]
  else if c <? 0x800 then
    [byte_of_N (N.lor 0xC0 (N.shiftr c 6));
     byte_of_N (N.lor 0x80 (N.land c 0x3F))]
  else if c <? 0x10000 then
    [byte_of_N (N.lor 0xE0 (N.shiftr c 12));
     byte_of_N (N.lor 0x80 (N.land (N.shiftr c 6) 0x3F));
     byte_of_N (N.lor 0x80 (N.land c 0x3F))]
  else
    [byte_of_N (N.lor 0xF0 (N.shiftr c 18));
     byte_of_N (N.lor 0x80 (N.land (N.shiftr c 12) 0x3F));
     byte_of_N (N.lor 0x80 (N.land (N.shiftr c 6) 0x3F));
     byte_of_N (N.lor 0x80 (N.land c 0x3F))].

(** [s.encode("utf-8")] with the default (strict) error handler: [None] is
    the UnicodeEncodeError raised at the first surrogate. *)
Fixpoint utf8_encode (s : str) : option bytes :=
  match s with
  | [] => Some []
  | c :: s' =>
      if is_surrogate c then None
      else match utf8_encode s' with
           | Some bs => Some (encode_cp c ++ bs)
           | None => None
           end
  end.

Definition REPLACEMENT : N := 0xFFFD.

Definition is_continuation (ch : N) : bool := (0x80 <=? ch) && (ch <? 0xC0).

(** [raw.decode("utf-8", errors="replace")].

    One pass over the bytes.  A well-formed sequence gives its code point.
    An invalid start byte, or a lead byte followed by a byte that cannot
    continue it, gives one U+FFFD for the bytes read so far and decoding
    resumes at the offending byte; a sequence cut short by the end of the
    data gives one U+FFFD for all that is left.  It never fails. *)
Fixpoint utf8_decode_replace (s : bytes) : str :=
  match s with
  | [] => []
  | b1 :: s1 =>
    let ch := Byte.to_N b1 in
    if ch <? 0x80 then ch :: utf8_decode_replace s1
    else if ch <? 0xE0 then
      (* \xC2\x80-\xDF\xBF : 0080-07FF *)
      if ch <? 0xC2 then REPLACEMENT :: utf8_decode_replace s1
      else match s1 with
           | [] => [REPLACEMENT]
           | b2 :: s2 =>
             let ch2 := Byte.to_N b2 in
             if negb (is_continuation ch2)
             then REPLACEMENT :: utf8_decode_replace s1
             else (N.shiftl ch 6 + ch2 - (N.shiftl 0xC0 6 + 0x80))
                    :: utf8_decode_replace s2
           end
    else if ch <? 0xF0 then
      (* \xE0\xA0\x80-\xEF\xBF\xBF : 0800-FFFF, surrogates excluded *)
      match s1 with
      | [] => [REPLACEMENT]
      | b2 :: s2 =>
        let ch2 := Byte.to_N b2 in
        if negb (is_continuation ch2)
           || (if ch2 <? 0xA0 then ch =? 0xE0 else ch =? 0xED)
        then REPLACEMENT :: utf8_decode_replace s1
        else match s2 with
             | [] => [REPLACEMENT]
             | b3 :: s3 =>
               let ch3 := Byte.to_N b3 in
               if negb (is_continuation ch3)
               then REPLACEMENT :: utf8_decode_replace s2
               else (N.shiftl ch 12 + N.shiftl ch2 6 + ch3
                     - (N.shiftl 0xE0 12 + N.shiftl 0x80 6 + 0x80))
                      :: utf8_decode_replace s3
             end
      end
    else if ch <? 0xF5 then
      (* \xF0\x90\x80\x80-\xF4\x8F\xBF\xBF : 10000-10FFFF *)
      match s1 with
      | [] => [REPLACEMENT]
      | b2 :: s2 =>
        let ch2 := Byte.to_N b2 in
        if negb (is_continuation ch2)
           || (if ch2 <? 0x90 then ch =? 0xF0 else ch =? 0xF4)
        then REPLACEMENT :: utf8_decode_replace s1
        else match s2 with
             | [] => [REPLACEMENT]
             | b3 :: s3 =>
               let ch3 := Byte.to_N b3 in
               if negb (is_continuation ch3)
               then REPLACEMENT :: utf8_decode_replace s2
               else match s3 with
                    | [] => [REPLACEMENT]
                    | b4 :: s4 =>
                      let ch4 := Byte.to_N b4 in
                      if negb (is_continuation ch4)
                      then REPLACEMENT :: utf8_decode_replace s3
                      else (N.shiftl ch 18 + N.shiftl ch2 12
                            + N.shiftl ch3 6 + ch4
                            - (N.shiftl 0xF0 18 + N.shiftl 0x80 12
                               + N.shiftl 0x80 6 + 0x80))
                             :: utf8_decode_replace s4
                    end
             end
      end
    else REPLACEMENT :: utf8_decode_replace s1
  end.

(** [v.encode("latin-1")], as the response object encodes its header values:
    [None] is the UnicodeEncodeError raised at a code point above U+00FF. *)
Fixpoint latin1_encode (s : str) : option bytes :=
  match s with
  | [] => Some []
  | c :: s' =>
      if 0xFF <? c then None
      else match latin1_encode s' with
           | Some bs => Some (byte_of_N c :: bs)
           | None => None
           end
  end.

(** Lowercasing of an ASCII code point: A-Z to a-z, the rest unchanged. *)
Definition ascii_lower (c : N) : N :=
  if (0x41 <=? c) && (c <=? 0x5A) then c + 0x20 else c.

Definition is_ascii (c : N) : bool := c <? 0x80.

End Text.

Import Text.

(** ** Python values, exceptions, requests *)

Module Py.

#[local] Set Warnings "-register-all".

(** What [resp.json()] can return: the values of a decoded JSON document. *)
Inductive value : Type :=
| VNone
| VBool (b : bool)
| VInt (z : Z)
| VFloat (f : SpecFloat.spec_float)
| VStr (s : str)
| VList (l : list value)
| VDict (items : list (str * value)).

(** Truth value of an object, as [if x] / [not x] / [x or y] test it. *)
Definition truthy (v : value) : bool :=
  match v with
  | VNone => false
  | VBool b => b
  | VInt z => negb (z =? 0)%Z
  | VFloat (SpecFloat.S754_zero _) => false
  | VFloat _ => true
  | VStr s => match s with [] => false | _ => true end
  | VList l => match l with [] => false | _ => true end
  | VDict items => match items with [] => false | _ => true end
  end.

(** An [Optional[str]] argument or environment value. *)
Definition truthy_str (o : option str) : bool :=
  match o with
  | Some (_ :: _) => true
  | _ => false
  end.

(** [x or default] on an [Optional[str]]. *)
Definition or_else (o : option str) (default : str) : str :=
  match o with
  | Some (c :: s) => c :: s
  | _ => default
  end.

(** The exceptions the pipeline can meet; all are subclasses of [Exception],
    so every [except Exception] clause catches each of them. *)
Inductive exn : Type :=
| ClientError (detail : str)        (* aiohttp: connection, payload, protocol *)
| TimeoutError                      (* the per-call or session time budget ran out *)
| ContentTypeError (detail : str)   (* resp.json() on an unexpected mimetype *)
| JSONDecodeError (detail : str)    (* malformed JSON *)
| UnicodeDecodeError (detail : str) (* resp.text() on an undecodable body *)
| UnicodeEncodeError (codec : str) (object : str)
| AttributeError (object : value) (attr : str)
| TypeError (detail : str)
| OtherException (detail : str).

Fixpoint lookup (key : str) (items : list (str * value)) : option value :=
  match items with
  | [] => None
  | (k, v) :: rest => if str_eqb k key then Some v else lookup key rest
  end.

(** [d.get(key, default)]: only a dict has [get]. *)
Definition get (d : value) (key : str) (default : value) : exn + value :=
  match d with
  | VDict items =>
      inr (match lookup key items with Some v => v | None => default end)
  | _ => inl (AttributeError d (lit "get"))
  end.

(** [x.encode("utf-8")]: only a [str] has [encode]; a surrogate cannot be
    encoded. *)
Definition encode (x : value) : exn + bytes :=
  match x with
  | VStr s =>
      match utf8_encode s with
      | Some bs => inr bs
      | None => inl (UnicodeEncodeError (lit "utf-8") s)
      end
  | _ => inl (AttributeError x (lit "encode"))
  end.

(** What the interpreter and its libraries supply and the repository does not
    define: [str.lower] (full Unicode lowercasing), [json.dumps], and [str(e)]
    of an exception. *)
Record runtime : Type := {
  lower : str -> str;
  json_dumps : value -> str;
  exn_str : exn -> str
}.

(** On ASCII text [str.lower] is ASCII lowercasing, whatever precedes it. *)
Definition lower_ascii_suffix (rt : runtime) : Prop :=
  forall p t, forallb is_ascii t = true ->
    exists p', lower rt (p ++ t) = p' ++ map ascii_lower t.

End Py.

Import Py.

(** ** The outbound HTTP client *)

Module Http.

Record form_field : Type := {
  field_name : str;
  field_value : str + bytes;
  field_filename : option str;
  field_content_type : option str
}.

Inductive payload : Type :=
| Data (text : str)                 (* data=script *)
| FormData (fields : list form_field)   (* data=form *)
| Json (v : value).                 (* json=params *)

(** One [session.post(url, headers=..., data=/json=..., timeout=...)]. *)
Record request : Type := {
  url : str;
  headers : list (str * value);
  body : payload;
  timeout : option N
}.

(** A response as the code reads it: [resp.status], [await resp.text()],
    [await resp.json()]; reading the body can itself raise. *)
Record response : Type := {
  status : Z;
  text : exn + str;
  json : exn + value
}.

Inductive post_outcome : Type :=
| PostRaises (e : exn)
| PostResponds (r : response).

(** [aiohttp.ClientSession(timeout=ClientTimeout(total=...))] *)
Record ClientSession : Type := {
  session_id : nat;
  total_timeout : N
}.

(** The remote side: which session object the runtime hands out, and what
    each request meets. *)
Record world : Type := {
  new_session : nat;
  respond : request -> post_outcome
}.

Inductive event : Type :=
| Open (s : ClientSession)
| Post (s : ClientSession) (r : request)
| Close (s : ClientSession).

End Http.

Import Http.

(** ** Awaited computations: outbound events, and a value or an exception *)

Definition M (A : Type) : Type := list event * (exn + A).

Definition ret {A} (a : A) : M A := ([], inr a).
Definition raise {A} (e : exn) : M A := ([], inl e).

Definition bind {A B} (m : M A) (k : A -> M B) : M B :=
  match m with
  | (t, inl e) => (t, inl e)
  | (t, inr a) => let (t', r) := k a in (t ++ t', r)
  end.

(** [try: m  except Exception: h] *)
Definition try_except {A} (m : M A) (h : exn -> M A) : M A :=
  match m with
  | (t, inl e) => let (t', r) := h e in (t ++ t', r)
  | (t, inr a) => (t, inr a)
  end.

(** A call that returns or raises without touching the network. *)
Definition lift {A} (r : exn + A) : M A := ([], r).

Definition trace {A} (m : M A) : list event := fst m.
Definition result {A} (m : M A) : exn + A := snd m.

Declare Scope monad_scope.
Delimit Scope monad_scope with monad.
Notation "x <- m ;; k" := (bind m (fun x => k))
  (at level 61, m at next level, right associativity) : monad_scope.
Notation "m ;;; k" := (bind m (fun _ => k))
  (at level 61, right associativity) : monad_scope.

(** ** The pipeline of main.py *)

Local Open Scope monad_scope.

(** What the handler hands to the HTTP layer. *)
Inductive Response : Type :=
| HTMLResponse (content : str) (status_code : Z)
| StreamingResponse (content : bytes) (media_type : str)
                    (headers : list (str * str)).

Definition status_code_of (r : Response) : Z :=
  match r with
  | HTMLResponse _ code => code
  | StreamingResponse _ _ _ => 200
  end.

(** The response constructor encodes every header value as latin-1 and
    raises when it cannot. *)
Definition make_StreamingResponse (content : bytes) (media_type : str)
    (headers : list (str * str)) : exn + Response :=
  if forallb (fun kv => match latin1_encode (snd kv) with
                        | Some _ => true
                        | None => false
                        end) headers
  then inr (StreamingResponse content media_type headers)
  else inl (UnicodeEncodeError (lit "latin-1")
              (List.concat (map (@snd str str) headers))).

(** [fastapi.UploadFile]: the name the client sent, if any, and what
    [await file.read()] returns. *)
Record UploadFile : Type := {
  filename : option str;
  read : bytes
}.

Definition QUOTE : str := [0x22].

Section Pipeline.

Variable rt : runtime.

(** The two module-level settings read from the environment. *)
Variable LUAOBFUSCATOR_API_KEY : option str.
Variable WEBHOOK_URL : option str.

Variable w : world.

(** [async with session.post(...) as resp] *)
Definition post (session : ClientSession) (r : request) : M response :=
  ([Post session r],
   match respond w r with
   | PostRaises e => inl e
   | PostResponds resp => inr resp
   end).

(** [async with aiohttp.ClientSession(timeout=...) as session]: the session
    is closed however the block ends. *)
Definition with_ClientSession {A} (total : N) (block : ClientSession -> M A)
    : M A :=
  let session := {| session_id := new_session w; total_timeout := total |} in
  let (t, r) := block session in
  (Open session :: t ++ [Close session], r).

Definition send_to_webhook (session : ClientSession) (filename content : str)
    : M unit :=
  if negb (truthy_str WEBHOOK_URL) then ret tt
  else
    try_except
      (file_bytes <- lift (encode (VStr content)) ;;
       let payload :=
         json_dumps rt
           (VDict [(lit "content",
                    VStr (lit "Original script uploaded: `" ++ filename
                          ++ lit "`"))]) in
       let form :=
         [ {| field_name := lit "payload_json";
              field_value := inl payload;
              field_filename := None;
              field_content_type := None |};
           {| field_name := lit "file";
              field_value := inr file_bytes;
              field_filename := Some filename;
              field_content_type := Some (lit "text/plain") |} ] in
       resp <- post session {| url := or_else WEBHOOK_URL [];
                               headers := [];
                               body := FormData form;
                               timeout := None |} ;;
       if negb ((status resp =? 200)%Z || (status resp =? 204)%Z)
       then (body <- lift (text resp) ;; ret tt)
       else ret tt)
      (fun _ => ret tt).

Definition NEWSCRIPT_URL : str :=
  lit "https://api.luaobfuscator.com/v1/obfuscator/newscript".
Definition OBFUSCATE_URL : str :=
  lit "https://api.luaobfuscator.com/v1/obfuscator/obfuscate".

Definition params : value :=
  VDict [(lit "MinifyAll", VBool true);
         (lit "Virtualize", VBool true);
         (lit "CustomPlugins",
          VDict [(lit "DummyFunctionArgs", VList [VInt 6; VInt 9])])].

Definition newscript_request (script : str) : request :=
  {| url := NEWSCRIPT_URL;
     headers := [(lit "apikey", VStr (or_else LUAOBFUSCATOR_API_KEY []));
                 (lit "content-type", VStr (lit "text/plain"))];
     body := Data script;
     timeout := Some 25 |}.

Definition obfuscate_request (session_id : value) : request :=
  {| url := OBFUSCATE_URL;
     headers := [(lit "apikey", VStr (or_else LUAOBFUSCATOR_API_KEY []));
                 (lit "sessionId", session_id);
                 (lit "content-type", VStr (lit "application/json"))];
     body := Json params;
     timeout := Some 25 |}.

(** The annotation says [-> str]; the last [return] hands back whatever the
    service put under ["code"], so the result is a [value]. *)
Definition obfuscate_script (session : ClientSession) (script : str)
    : M value :=
  if negb (truthy_str LUAOBFUSCATOR_API_KEY) then ret (VStr script)
  else
    try_except
      (resp <- post session (newscript_request script) ;;
       if negb (status resp =? 200)%Z
       then (body <- lift (text resp) ;; ret (VStr script))
       else
         data <- lift (json resp) ;;
         session_id <- lift (get data (lit "sessionId") VNone) ;;
         if negb (truthy session_id) then ret (VStr script)
         else
           resp2 <- post session (obfuscate_request session_id) ;;
           if negb (status resp2 =? 200)%Z
           then (body <- lift (text resp2) ;; ret (VStr script))
           else
             data2 <- lift (json resp2) ;;
             lift (get data2 (lit "code") (VStr script)))
      (fun _ => ret (VStr script)).

(** Lines 280-286: which content and which source name the request carries. *)
Definition incoming (file : option UploadFile) (script : option str)
    : str * str :=
  match file with
  | Some f =>
      (or_else (filename f) (lit "uploaded_script.lua"),
       utf8_decode_replace (read f))
  | None => (lit "pasted_script.lua", or_else script [])
  end.

(** Lines 296-298: the name of the download. *)
Definition out_name (filename : option str) (incoming_name : str) : str :=
  let out_name := or_else filename (lit "obfuscated_" ++ incoming_name) in
  if negb (endswith (lower rt out_name) (lit ".lua")
           || endswith (lower rt out_name) (lit ".txt"))
  then out_name ++ lit ".lua"
  else out_name.

Definition NO_INPUT : Response :=
  HTMLResponse (lit "<p style='color:red'>Error: No input provided.</p>") 400.

(** [POST /obfuscate] *)
Definition obfuscate (file : option UploadFile) (script filename : option str)
    : M Response :=
  if negb (match file with Some _ => true | None => false end)
     && negb (truthy_str script)
  then ret NO_INPUT
  else
    try_except
      (let (incoming_name, content) := incoming file script in
       obfuscated <-
         with_ClientSession 30 (fun session =>
           send_to_webhook session incoming_name content ;;;
           obfuscate_script session content) ;;
       let out_name := out_name filename incoming_name in
       buf <- lift (encode obfuscated) ;;
       let headers :=
         [(lit "Content-Disposition",
           lit "attachment; filename=" ++ QUOTE ++ out_name ++ QUOTE)] in
       lift (make_StreamingResponse buf (lit "text/plain") headers))
      (fun e =>
         ret (HTMLResponse
                (lit "<p style='color:red'>Error: " ++ exn_str rt e
                 ++ lit "</p>") 500)).

End Pipeline.

Arguments post w session r : assert.
Arguments with_ClientSession w {A} total block.

(** ** Vocabulary of the properties *)

(** Bytes that are the UTF-8 encoding of some text. *)
Definition valid_utf8 (raw : bytes) : Prop :=
  exists s, forallb is_scalar s = true /\ utf8_encode s = Some raw.

(** A request of the obfuscation exchange (as opposed to the webhook's). *)
Definition obfuscation_request (key : option str) (r : request) : Prop :=
  (exists script, r = newscript_request key script)
  \/ (exists session_id, r = obfuscate_request key session_id).

(** Two worlds in which the obfuscation service behaves alike; the webhook
    may behave in any way in either. *)
Definition same_obfuscation_service (key : option str) (w1 w2 : world) : Prop :=
  forall r, obfuscation_request key r -> respond w1 r = respond w2 r.

(** The ways the two-step exchange can go wrong, for a given script. *)
Inductive exchange_fails (key : option str) (w : world) (script : str) : Prop :=
| newscript_raises e :
    respond w (newscript_request key script) = PostRaises e ->
    exchange_fails key w script
| newscript_not_200 r :
    respond w (newscript_request key script) = PostResponds r ->
    status r <> 200%Z ->
    exchange_fails key w script
| newscript_malformed_json r e :
    respond w (newscript_request key script) = PostResponds r ->
    json r = inl e ->
    exchange_fails key w script
| newscript_not_a_dict r data e :
    respond w (newscript_request key script) = PostResponds r ->
    json r = inr data ->
    get data (lit "sessionId") VNone = inl e ->
    exchange_fails key w script
| no_session_id r data session_id :
    respond w (newscript_request key script) = PostResponds r ->
    json r = inr data ->
    get data (lit "sessionId") VNone = inr session_id ->
    truthy session_id = false ->
    exchange_fails key w script
| transform_raises r data session_id e :
    respond w (newscript_request key script) = PostResponds r ->
    json r = inr data ->
    get data (lit "sessionId") VNone = inr session_id ->
    respond w (obfuscate_request key session_id) = PostRaises e ->
    exchange_fails key w script
| transform_not_200 r data session_id r2 :
    respond w (newscript_request key script) = PostResponds r ->
    json r = inr data ->
    get data (lit "sessionId") VNone = inr session_id ->
    respond w (obfuscate_request key session_id) = PostResponds r2 ->
    status r2 <> 200%Z ->
    exchange_fails key w script
| transform_malformed_json r data session_id r2 e :
    respond w (newscript_request key script) = PostResponds r ->
    json r = inr data ->
    get data (lit "sessionId") VNone = inr session_id ->
    respond w (obfuscate_request key session_id) = PostResponds r2 ->
    json r2 = inl e ->
    exchange_fails key w script
| transform_not_a_dict r data session_id r2 data2 e :
    respond w (newscript_request key script) = PostResponds r ->
    json r = inr data ->
    get data (lit "sessionId") VNone = inr session_id ->
    respond w (obfuscate_request key session_id) = PostResponds r2 ->
    json r2 = inr data2 ->
    get data2 (lit "code") (VStr script) = inl e ->
    exchange_fails key w script.

(** [obfuscate_script] as a decision tree over what the service does. *)
Definition obfuscate_script_tree (key : option str) (w : world)
    (session : ClientSession) (script : str) : M value :=
  let fallback := inr (VStr script) in
  let first := Post session (newscript_request key script) in
  if negb (truthy_str key) then ([], fallback)
  else match respond w (newscript_request key script) with
  | PostRaises _ => ([first], fallback)
  | PostResponds r =>
    if negb (status r =? 200)%Z then ([first], fallback)
    else match json r with
    | inl _ => ([first], fallback)
    | inr data =>
      match get data (lit "sessionId") VNone with
      | inl _ => ([first], fallback)
      | inr session_id =>
        let second := Post session (obfuscate_request key session_id) in
        if negb (truthy session_id) then ([first], fallback)
        else match respond w (obfuscate_request key session_id) with
        | PostRaises _ => ([first; second], fallback)
        | PostResponds r2 =>
          if negb (status r2 =? 200)%Z then ([first; second], fallback)
          else match json r2 with
          | inl _ => ([first; second], fallback)
          | inr data2 =>
            match get data2 (lit "code") (VStr script) with
            | inl _ => ([first; second], fallback)
            | inr code => ([first; second], inr code)
            end
          end
        end
      end
    end
  end.

(** The page of the 500 branch. *)
Definition error_page (rt : runtime) (e : exn) : Response :=
  HTMLResponse
    (lit "<p style='color:red'>Error: " ++ exn_str rt e ++ lit "</p>") 500.

(** Lines 296-306 as a function of what [obfuscate_script] returned: the
    download, or the error page when encoding or the header fails. *)
Definition package (rt : runtime) (filename : option str)
    (incoming_name : str) (obfuscated : value) : Response :=
  match encode obfuscated with
  | inl e => error_page rt e
  | inr buf =>
      match make_StreamingResponse buf (lit "text/plain")
              [(lit "Content-Disposition",
                lit "attachment; filename=" ++ QUOTE
                ++ out_name rt filename incoming_name ++ QUOTE)] with
      | inl e => error_page rt e
      | inr r => r
      end
  end.

(** The session object the handler opens in world [w]. *)
Definition the_session (w : world) : ClientSession :=
  {| session_id := new_session w; total_timeout := 30 |}.

(** An event of the notifier, resp. of the obfuscation exchange, on a given
    session. *)
Definition webhook_event (session : ClientSession) (e : event) : Prop :=
  exists r fields, e = Post session r /\ body r = FormData fields.

Definition obfuscation_event (key : option str) (session : ClientSession)
    (e : event) : Prop :=
  exists r, e = Post session r /\ obfuscation_request key r.

(** ** Concrete runtimes and worlds to run the model on *)

Module Sample.

(** A runtime for ASCII text. [json_dumps] covers the one payload the
    pipeline serialises, a dict with one text entry. *)
Definition ascii_runtime : runtime :=
  {| lower := map ascii_lower;
     json_dumps := fun v =>
       match v with
       | VDict ((k, VStr s) :: _) =>
           lit "{" ++ QUOTE ++ k ++ QUOTE ++ lit ": " ++ QUOTE ++ s ++ QUOTE
           ++ lit "}"
       | _ => lit "null"
       end;
     exn_str := fun e =>
       match e with
       | ClientError d | ContentTypeError d | JSONDecodeError d
       | UnicodeDecodeError d | TypeError d | OtherException d => d
       | TimeoutError => []
       | UnicodeEncodeError codec _ => codec ++ lit " codec can't encode"
       | AttributeError _ attr => lit "object has no attribute " ++ attr
       end |}.

(** Nothing can be reached. *)
Definition offline : world :=
  {| new_session := 0%nat;
     respond := fun _ => PostRaises (ClientError (lit "Cannot connect to host")) |}.

Definition reply (code : Z) (doc : value) : post_outcome :=
  PostResponds {| status := code; text := inr []; json := inr doc |}.

(** The obfuscation service answers 503 to everything. *)
Definition unavailable : world :=
  {| new_session := 0%nat;
     respond := fun _ => reply 503 VNone |}.

(** Both steps of the exchange succeed; the webhook accepts with 204. *)
Definition healthy : world :=
  {| new_session := 0%nat;
     respond := fun r =>
       match body r with
       | Data _ => reply 200 (VDict [(lit "sessionId", VStr (lit "abc"))])
       | Json _ => reply 200 (VDict [(lit "code", VStr (lit "return 1"))])
       | FormData _ => reply 204 VNone
       end |}.

(** As [healthy], with a webhook that fails. *)
Definition healthy_webhook_down : world :=
  {| new_session := 0%nat;
     respond := fun r =>
       match body r with
       | FormData _ => PostRaises TimeoutError
       | _ => respond healthy r
       end |}.

Definition KEY : option str := Some (lit "secret").
Definition HOOK : option str := Some (lit "https://example.invalid/hook").

(** print("hi") *)
Definition print_hi : str := lit "print(" ++ QUOTE ++ lit "hi" ++ QUOTE ++ lit ")".

Definition test_lua : UploadFile :=
  {| filename := Some (lit "test.lua");
     read := map byte_of_N print_hi |}.

Definition not_utf8 : UploadFile :=
  {| filename := Some (lit "a.lua"); read := [xff] |}.

Definition unnamed : UploadFile :=
  {| filename := None; read := map byte_of_N (lit "x=1") |}.

End Sample.

(** ** Vocabulary of the further properties *)

(** The first step of the exchange gave a usable session identifier: a 200
    answer whose JSON object holds a truthy value under "sessionId". *)
Definition session_established (key : option str) (w : world) (script : str)
    (session_id : value) : Prop :=
  exists r data,
    respond w (newscript_request key script) = PostResponds r
    /\ status r = 200%Z
    /\ json r = inr data
    /\ get data (lit "sessionId") VNone = inr session_id
    /\ truthy session_id = true.

(** The one request [send_to_webhook] posts, for a given target, source name
    and encoded content. *)
Definition webhook_request (rt : runtime) (target name : str) (raw : bytes)
    : request :=
  {| url := target;
     headers := [];
     body :=
       FormData
         [ {| field_name := lit "payload_json";
              field_value :=
                inl (json_dumps rt
                       (VDict [(lit "content",
                                VStr (lit "Original script uploaded: `"
                                      ++ name ++ lit "`"))]));
              field_filename := None;
              field_content_type := None |};
           {| field_name := lit "file";
              field_value := inr raw;
              field_filename := Some name;
              field_content_type := Some (lit "text/plain") |} ];
     timeout := None |}.

(** Number of bytes the UTF-8 encoder writes for a code point, for a text. *)
Definition cp_size (c : N) : nat :=
  if c <? 0x80 then 1%nat
  else if c <? 0x800 then 2%nat
  else if c <? 0x10000 then 3%nat
  else 4%nat.

Fixpoint utf8_size (s : str) : nat :=
  match s with
  | [] => 0%nat
  | c :: s' => (cp_size c + utf8_size s')%nat
  end.

(** The requests among the events of a run. *)
Fixpoint posts (t : list event) : list request :=
  match t with
  | [] => []
  | Post _ r :: t' => r :: posts t'
  | _ :: t' => posts t'
  end.

(** Further worlds. *)
Module Worlds.

(** The exchange succeeds but the service puts [null] under "code". *)
Definition null_code : world :=
  {| new_session := 0%nat;
     respond := fun r =>
       match body r with
       | Data _ =>
           Sample.reply 200 (VDict [(lit "sessionId", VStr (lit "abc"))])
       | Json _ => Sample.reply 200 (VDict [(lit "code", VNone)])
       | FormData _ => Sample.reply 204 VNone
       end |}.

(** The first step answers 200 with a session identifier that is the number
    zero. *)
Definition zero_session : world :=
  {| new_session := 0%nat;
     respond := fun r =>
       match body r with
       | Data _ => Sample.reply 200 (VDict [(lit "sessionId", VInt 0)])
       | _ => Sample.reply 200 (VDict [(lit "code", VStr (lit "return 1"))])
       end |}.

(** An upload of the bytes 41 FF 42: "A", an invalid byte, "B". *)
Definition mixed : UploadFile :=
  {| filename := Some (lit "m.lua"); read := [x41; xff; x42] |}.

End Worlds.

(** * Properties *)

(** ** The codec *)

Module TextFacts.

Lemma to_N_byte_of_N n : n < 256 -> Byte.to_N (byte_of_N n) = n.
Proof.
  intros Hn. unfold byte_of_N.
  destruct (Byte.of_N n) as [b|] eqn:E.
  - now apply Byte.to_of_N.
  - apply Byte.of_N_None_iff in E. lia.
Qed.

Lemma to_N_lt b : Byte.to_N b < 256.
Proof. pose proof (Byte.to_N_bounded b). lia. Qed.

Lemma lor_disjoint a x k :
  x < 2 ^ k -> a mod 2 ^ k = 0 -> N.lor a x = a + x.
Proof.
  intros Hx Ha.
  assert (Hl : N.land a x = 0).
  { apply N.bits_inj. intros i. rewrite N.land_spec, N.bits_0.
    destruct (N.lt_ge_cases i k) as [Hi|Hi].
    - rewrite <- (N.mod_pow2_bits_low a k i Hi), Ha, N.bits_0. reflexivity.
    - rewrite <- (N.mod_small x (2 ^ k) Hx), (N.mod_pow2_bits_high x k i Hi).
      apply andb_false_r. }
  rewrite (N.add_nocarry_lxor a x Hl). symmetry. now apply N.lxor_lor.
Qed.

Lemma land_0x3F c : N.land c 0x3F = c mod 64.
Proof. change 0x3F with (N.ones 6). now rewrite N.land_ones. Qed.

Lemma shiftr_div c k : N.shiftr c k = c / 2 ^ k.
Proof. apply N.shiftr_div_pow2. Qed.

Lemma cont_byte x : x < 64 -> N.lor 0x80 x = 128 + x.
Proof. intros H. apply (lor_disjoint 0x80 x 6); [exact H | reflexivity]. Qed.

Ltac bool_conds :=
  repeat match goal with
  | |- context [?a <? ?b] =>
      first [ rewrite (proj2 (N.ltb_lt a b)) by lia
            | rewrite (proj2 (N.ltb_ge a b)) by lia ]
  | |- context [?a <=? ?b] =>
      first [ rewrite (proj2 (N.leb_le a b)) by lia
            | rewrite (proj2 (N.leb_gt a b)) by lia ]
  | |- context [?a =? ?b] =>
      first [ rewrite (proj2 (N.eqb_eq a b)) by lia
            | rewrite (proj2 (N.eqb_neq a b)) by lia ]
  end.

Lemma decode_cons b1 s1 :
  utf8_decode_replace (b1 :: s1) =
  let ch := Byte.to_N b1 in
  if ch <? 0x80 then ch :: utf8_decode_replace s1
  else if ch <? 0xE0 then
    if ch <? 0xC2 then REPLACEMENT :: utf8_decode_replace s1
    else match s1 with
         | [] => [REPLACEMENT]
         | b2 :: s2 =>
           let ch2 := Byte.to_N b2 in
           if negb (is_continuation ch2)
           then REPLACEMENT :: utf8_decode_replace s1
           else (N.shiftl ch 6 + ch2 - (N.shiftl 0xC0 6 + 0x80))
                  :: utf8_decode_replace s2
         end
  else if ch <? 0xF0 then
    match s1 with
    | [] => [REPLACEMENT]
    | b2 :: s2 =>
      let ch2 := Byte.to_N b2 in
      if negb (is_continuation ch2)
         || (if ch2 <? 0xA0 then ch =? 0xE0 else ch =? 0xED)
      then REPLACEMENT :: utf8_decode_replace s1
      else match s2 with
           | [] => [REPLACEMENT]
           | b3 :: s3 =>
             let ch3 := Byte.to_N b3 in
             if negb (is_continuation ch3)
             then REPLACEMENT :: utf8_decode_replace s2
             else (N.shiftl ch 12 + N.shiftl ch2 6 + ch3
                   - (N.shiftl 0xE0 12 + N.shiftl 0x80 6 + 0x80))
                    :: utf8_decode_replace s3
           end
    end
  else if ch <? 0xF5 then
    match s1 with
    | [] => [REPLACEMENT]
    | b2 :: s2 =>
      let ch2 := Byte.to_N b2 in
      if negb (is_continuation ch2)
         || (if ch2 <? 0x90 then ch =? 0xF0 else ch =? 0xF4)
      then REPLACEMENT :: utf8_decode_replace s1
      else match s2 with
           | [] => [REPLACEMENT]
           | b3 :: s3 =>
             let ch3 := Byte.to_N b3 in
             if negb (is_continuation ch3)
             then REPLACEMENT :: utf8_decode_replace s2
             else match s3 with
                  | [] => [REPLACEMENT]
                  | b4 :: s4 =>
                    let ch4 := Byte.to_N b4 in
                    if negb (is_continuation ch4)
                    then REPLACEMENT :: utf8_decode_replace s3
                    else (N.shiftl ch 18 + N.shiftl ch2 12
                          + N.shiftl ch3 6 + ch4
                          - (N.shiftl 0xF0 18 + N.shiftl 0x80 12
                             + N.shiftl 0x80 6 + 0x80))
                           :: utf8_decode_replace s4
                  end
           end
    end
  else REPLACEMENT :: utf8_decode_replace s1.
Proof. destruct s1; reflexivity. Qed.

Ltac decode_step :=
  rewrite decode_cons; cbv beta iota zeta; unfold is_continuation;
  rewrite ?to_N_byte_of_N by lia; bool_conds; cbv beta iota;
  cbn [negb orb andb].

Lemma decode_encode_cp c rest :
  is_scalar c = true ->
  utf8_decode_replace (encode_cp c ++ rest) = c :: utf8_decode_replace rest.
Proof.
  unfold is_scalar, is_surrogate. intros H.
  apply andb_true_iff in H. destruct H as [Hmax Hsur].
  apply N.ltb_lt in Hmax.
  assert (Hs : c < 0xD800 \/ 0xDFFF < c).
  { apply negb_true_iff, andb_false_iff in Hsur.
    destruct Hsur as [H|H]; apply N.leb_gt in H; lia. }
  clear Hsur. unfold encode_cp.
  rewrite !land_0x3F, !shiftr_div.
  change (2 ^ 6) with 64. change (2 ^ 12) with (64 * 64).
  change (2 ^ 18) with (64 * 64 * 64). rewrite <- !N.Div0.div_div.
  pose proof (N.div_mod c 64 ltac:(lia)) as D1.
  pose proof (N.mod_lt c 64 ltac:(lia)) as M1.
  pose proof (N.div_mod (c / 64) 64 ltac:(lia)) as D2.
  pose proof (N.mod_lt (c / 64) 64 ltac:(lia)) as M2.
  pose proof (N.div_mod (c / 64 / 64) 64 ltac:(lia)) as D3.
  pose proof (N.mod_lt (c / 64 / 64) 64 ltac:(lia)) as M3.
  set (r1 := c mod 64) in *. set (q1 := c / 64) in *.
  set (r2 := q1 mod 64) in *. set (q2 := q1 / 64) in *.
  set (r3 := q2 mod 64) in *. set (q3 := q2 / 64) in *.
  clearbody r1 q1 r2 q2 r3 q3.
  destruct (N.ltb_spec c 0x80) as [L1|L1].
  { cbn [app]. decode_step. reflexivity. }
  destruct (N.ltb_spec c 0x800) as [L2|L2].
  { rewrite (lor_disjoint 0xC0 q1 6), cont_byte by (try reflexivity; simpl; lia).
    cbn [app]. decode_step. rewrite !N.shiftl_mul_pow2. change (2 ^ 6) with 64.
    f_equal. lia. }
  destruct (N.ltb_spec c 0x10000) as [L3|L3].
  { rewrite (lor_disjoint 0xE0 q2 5), !cont_byte by (try reflexivity; simpl; lia).
    cbn [app]. decode_step.
    destruct (N.ltb_spec (128 + r2) 160); bool_conds; cbn [negb orb andb];
      rewrite !N.shiftl_mul_pow2; change (2 ^ 6) with 64;
      change (2 ^ 12) with 4096; f_equal; lia. }
  rewrite (lor_disjoint 0xF0 q3 4), !cont_byte by (try reflexivity; simpl; lia).
  cbn [app]. decode_step.
  destruct (N.ltb_spec (128 + r3) 144); bool_conds; cbn [negb orb andb];
    rewrite !N.shiftl_mul_pow2; change (2 ^ 6) with 64;
    change (2 ^ 12) with 4096; change (2 ^ 18) with 262144; f_equal; lia.
Qed.

(** Decoding what the encoder wrote gives the text back. *)
Lemma decode_encode s raw :
  forallb is_scalar s = true ->
  utf8_encode s = Some raw ->
  utf8_decode_replace raw = s.
Proof.
  revert raw. induction s as [|c s IH]; intros raw Hs He.
  - injection He as <-. reflexivity.
  - cbn [forallb] in Hs. apply andb_true_iff in Hs. destruct Hs as [Hc Hs].
    cbn [utf8_encode] in He.
    destruct (is_surrogate c); [discriminate|].
    destruct (utf8_encode s) as [bs|] eqn:E; [|discriminate].
    injection He as <-.
    rewrite decode_encode_cp by exact Hc.
    f_equal. now apply IH.
Qed.

(** Scalar values always encode. *)
Lemma encode_scalar s :
  forallb is_scalar s = true -> exists raw, utf8_encode s = Some raw.
Proof.
  induction s as [|c s IH]; intros Hs.
  - now exists [].
  - cbn [forallb] in Hs. apply andb_true_iff in Hs. destruct Hs as [Hc Hs].
    destruct (IH Hs) as [bs E]. cbn [utf8_encode]. rewrite E.
    unfold is_scalar in Hc. apply andb_true_iff in Hc. destruct Hc as [_ Hc].
    apply negb_true_iff in Hc. rewrite Hc. eauto.
Qed.

Lemma str_eqb_refl s : str_eqb s s = true.
Proof. unfold str_eqb. destruct (list_eq_dec N.eq_dec s s); congruence. Qed.

Lemma str_eqb_eq a b : str_eqb a b = true <-> a = b.
Proof.
  unfold str_eqb. destruct (list_eq_dec N.eq_dec a b); split; congruence.
Qed.

Lemma endswith_app p t : endswith (p ++ t) t = true.
Proof.
  unfold endswith. rewrite length_app.
  replace (List.length p + List.length t - List.length t)%nat
    with (List.length p) by lia.
  rewrite skipn_app, skipn_all, Nat.sub_diag. cbn [app skipn].
  rewrite str_eqb_refl. apply andb_true_iff. split; [reflexivity|].
  apply Nat.leb_le. lia.
Qed.

Lemma endswith_inv s t : endswith s t = true -> exists p, s = p ++ t.
Proof.
  unfold endswith. intros H. apply andb_true_iff in H. destruct H as [H _].
  apply str_eqb_eq in H.
  exists (firstn (List.length s - List.length t) s).
  set (n := (List.length s - List.length t)%nat) in *.
  rewrite <- H. symmetry. apply firstn_skipn.
Qed.

Lemma is_scalar_spec c :
  is_scalar c = true <-> c < 0x110000 /\ (c < 0xD800 \/ 0xDFFF < c).
Proof.
  unfold is_scalar, is_surrogate.
  rewrite andb_true_iff, negb_true_iff, andb_false_iff, N.ltb_lt,
    !N.leb_gt. lia.
Qed.

Ltac split_conds :=
  repeat (first
    [ match goal with
      | |- context [?a <? ?b] => destruct (N.ltb_spec a b)
      | |- context [?a <=? ?b] => destruct (N.leb_spec a b)
      | |- context [?a =? ?b] => destruct (N.eqb_spec a b)
      | |- context [match ?l with [] => _ | _ :: _ => _ end] =>
          is_var l; destruct l
      end ]; cbn [negb orb andb]).

Ltac byte_bounds :=
  repeat match goal with
  | b : byte |- _ =>
      lazymatch goal with
      | H : Byte.to_N b < 256 |- _ => fail
      | _ => pose proof (to_N_lt b)
      end
  end.

Lemma decode_scalar_bounded n :
  forall s, (List.length s <= n)%nat ->
    forallb is_scalar (utf8_decode_replace s) = true.
Proof.
  induction n as [|n IH]; intros s Hlen.
  - destruct s; [reflexivity|cbn in Hlen; lia].
  - destruct s as [|b1 s1]; [reflexivity|].
    rewrite decode_cons. cbv zeta. unfold is_continuation, REPLACEMENT.
    split_conds; byte_bounds; rewrite ?N.shiftl_mul_pow2;
      change (2 ^ 6) with 64; change (2 ^ 12) with 4096;
      change (2 ^ 18) with 262144; cbn [forallb]; apply andb_true_iff;
      (split; [apply is_scalar_spec; lia
              | try reflexivity; apply IH; cbn [List.length] in *; lia]).
Qed.

(** The decoder only ever produces Unicode scalar values, whatever the
    bytes. *)
Lemma decode_scalar s : forallb is_scalar (utf8_decode_replace s) = true.
Proof. now apply (decode_scalar_bounded (List.length s)). Qed.

(** So what it produces can always be encoded again. *)
Lemma decode_then_encode s :
  exists raw, utf8_encode (utf8_decode_replace s) = Some raw.
Proof. apply encode_scalar, decode_scalar. Qed.

End TextFacts.

Import TextFacts.

(** ** Awaited computations *)

Lemma try_except_ret {A} (m : M A) (a : A) :
  try_except m (fun _ => ret a)
  = (trace m, match result m with inl _ => inr a | inr v => inr v end).
Proof.
  destruct m as [t [e|v]]; cbn; [rewrite app_nil_r|]; reflexivity.
Qed.

Lemma bind_lift {A B} (r : exn + A) (k : A -> M B) :
  bind (lift r) k = match r with inl e => ([], inl e) | inr a => k a end.
Proof.
  destruct r as [e|a]; cbn; [reflexivity|]. now destruct (k a).
Qed.

Lemma bind_post {B} w session r (k : response -> M B) :
  bind (post w session r) k
  = match respond w r with
    | PostRaises e => ([Post session r], inl e)
    | PostResponds resp =>
        (Post session r :: trace (k resp), result (k resp))
    end.
Proof.
  unfold post, bind. destruct (respond w r) as [e|resp]; [reflexivity|].
  now destruct (k resp).
Qed.

Lemma M_eta {A} (m : M A) : m = (trace m, result m).
Proof. now destruct m. Qed.

(** ** The notifier *)

(** What [send_to_webhook] does, case by case: nothing without a URL or when
    the content cannot be encoded; otherwise exactly one POST of a form,
    whose outcome is dropped. *)
Lemma send_to_webhook_run rt url w session name content :
  result (send_to_webhook rt url w session name content) = inr tt
  /\ (trace (send_to_webhook rt url w session name content) = []
      \/ exists r fields,
           trace (send_to_webhook rt url w session name content)
           = [Post session r]
           /\ body r = FormData fields).
Proof.
  unfold send_to_webhook.
  destruct (truthy_str url); cbn [negb]; [|split; [reflexivity|now left]].
  rewrite try_except_ret. cbn [trace result fst snd].
  rewrite bind_lift.
  destruct (encode (VStr content)) as [e|file_bytes].
  { split; [reflexivity|now left]. }
  rewrite bind_post.
  match goal with |- context [respond w ?r] => set (req := r) end.
  destruct (respond w req) as [e|resp].
  { split; [reflexivity|]. right. now exists req; eexists. }
  match goal with |- context [if ?c then _ else _] => destruct c end.
  - rewrite bind_lift. destruct (text resp) as [e|body].
    + split; [reflexivity|]. right. now exists req; eexists.
    + split; [reflexivity|]. right. now exists req; eexists.
  - split; [reflexivity|]. right. now exists req; eexists.
Qed.

(** ** The obfuscation client *)

Lemma obfuscate_script_run key w session script :
  obfuscate_script key w session script
  = obfuscate_script_tree key w session script.
Proof.
  unfold obfuscate_script, obfuscate_script_tree.
  destruct (truthy_str key); cbn [negb]; [|reflexivity].
  rewrite try_except_ret, bind_post.
  destruct (respond w (newscript_request key script)) as [e|r];
    [reflexivity|].
  destruct (status r =? 200)%Z; cbn [negb].
  2:{ rewrite bind_lift. now destruct (text r). }
  rewrite bind_lift. destruct (json r) as [e|data]; [reflexivity|].
  rewrite bind_lift.
  destruct (get data (lit "sessionId") VNone) as [e|session_id];
    [reflexivity|].
  destruct (truthy session_id); cbn [negb]; [|reflexivity].
  rewrite bind_post.
  destruct (respond w (obfuscate_request key session_id)) as [e|r2];
    [reflexivity|].
  destruct (status r2 =? 200)%Z; cbn [negb].
  2:{ rewrite bind_lift. now destruct (text r2). }
  rewrite bind_lift. destruct (json r2) as [e|data2]; [reflexivity|].
  now destruct (get data2 (lit "code") (VStr script)).
Qed.

Lemma obfuscate_script_returns key w session script :
  exists v, result (obfuscate_script key w session script) = inr v.
Proof.
  unfold obfuscate_script.
  destruct (truthy_str key); cbn [negb]; [|now eexists].
  rewrite try_except_ret. cbn [result snd].
  match goal with |- context [match ?r with _ => _ end] => destruct r end;
    now eexists.
Qed.

(** C2. [obfuscate_script] never raises: whatever the script, the settings
    and the remote service, it returns a value; and on every failure of the
    exchange (a request that raises, a status other than 200 at either step,
    a body that is not JSON or not a JSON object, no session identifier) the
    value is the original script text. *)
Theorem obfuscate_script_never_raises key w session script :
  (exists v, result (obfuscate_script key w session script) = inr v)
  /\ (truthy_str key = false \/ exchange_fails key w script ->
      result (obfuscate_script key w session script) = inr (VStr script)).
Proof.
  split; [apply obfuscate_script_returns|].
  rewrite obfuscate_script_run. unfold obfuscate_script_tree.
  intros [Hkey|Hfail].
  { now rewrite Hkey. }
  destruct (truthy_str key); cbn [negb]; [|reflexivity].
  destruct Hfail as
    [ e H1 | r H1 Hs | r e H1 Hj | r data e H1 Hj Hg
    | r data sid H1 Hj Hg Ht | r data sid e H1 Hj Hg H2
    | r data sid r2 H1 Hj Hg H2 Hs2 | r data sid r2 e H1 Hj Hg H2 Hj2
    | r data sid r2 data2 e H1 Hj Hg H2 Hj2 Hg2 ];
    rewrite H1; try reflexivity;
    try (destruct (Z.eqb_spec (status r) 200); cbn [negb];
         [|reflexivity]);
    try contradiction;
    rewrite ?Hj, ?Hg, ?Ht; cbn [negb]; try reflexivity;
    destruct (truthy sid); cbn [negb]; try reflexivity;
    rewrite H2; try reflexivity;
    try (destruct (Z.eqb_spec (status r2) 200); cbn [negb];
         [|reflexivity]);
    try contradiction;
    rewrite ?Hj2, ?Hg2; reflexivity.
Qed.

Lemma obfuscate_script_never_raises_witness :
  exchange_fails Sample.KEY Sample.unavailable (lit "x=1")
  /\ result (obfuscate_script Sample.KEY Sample.unavailable
               {| session_id := 0; total_timeout := 30 |} (lit "x=1"))
     = inr (VStr (lit "x=1")).
Proof.
  assert (F : exchange_fails Sample.KEY Sample.unavailable (lit "x=1")).
  { eapply newscript_not_200; [reflexivity|]. cbn. discriminate. }
  split; [exact F|].
  apply (proj2 (obfuscate_script_never_raises Sample.KEY Sample.unavailable
                  {| session_id := 0; total_timeout := 30 |} (lit "x=1"))).
  right. exact F.
Defined.

(** C5. When the key is configured and the session-creation call answers
    with a status other than 200, [obfuscate_script] returns the original
    text and the only request it has made is that first one: the transform
    call is not made. *)
Theorem newscript_rejected_no_transform key w session script r :
  truthy_str key = true ->
  respond w (newscript_request key script) = PostResponds r ->
  status r <> 200%Z ->
  result (obfuscate_script key w session script) = inr (VStr script)
  /\ trace (obfuscate_script key w session script)
     = [Post session (newscript_request key script)]
  /\ (forall s session_id,
        ~ In (Post s (obfuscate_request key session_id))
             (trace (obfuscate_script key w session script))).
Proof.
  intros Hkey H1 Hs.
  rewrite obfuscate_script_run. unfold obfuscate_script_tree.
  rewrite Hkey, H1. cbn [negb].
  destruct (Z.eqb_spec (status r) 200); [contradiction|]. cbn [negb].
  split; [reflexivity|]. split; [reflexivity|].
  intros s sid [H|[]]. cbn [trace fst] in H. discriminate H.
Qed.

Lemma newscript_rejected_no_transform_witness :
  result (obfuscate_script Sample.KEY Sample.unavailable
            {| session_id := 0; total_timeout := 30 |} (lit "x=1"))
  = inr (VStr (lit "x=1"))
  /\ trace (obfuscate_script Sample.KEY Sample.unavailable
              {| session_id := 0; total_timeout := 30 |} (lit "x=1"))
     = [Post {| session_id := 0; total_timeout := 30 |}
             (newscript_request Sample.KEY (lit "x=1"))].
Proof.
  pose proof (newscript_rejected_no_transform Sample.KEY Sample.unavailable
                {| session_id := 0; total_timeout := 30 |} (lit "x=1")
                {| status := 503; text := inr []; json := inr VNone |}
                eq_refl eq_refl ltac:(cbn; discriminate)) as [H1 [H2 _]].
  split; assumption.
Defined.

(** ** The handler *)

Lemma obfuscate_no_input rt key url w script filename :
  truthy_str script = false ->
  obfuscate rt key url w None script filename = ret NO_INPUT.
Proof. intros H. unfold obfuscate. now rewrite H. Qed.

(** A handled submission: the session is opened, the notifier runs, then the
    exchange, the session is closed, and the response is packaged from what
    the exchange returned. *)
Lemma obfuscate_run rt key url w file script filename :
  file <> None \/ truthy_str script = true ->
  let name := fst (incoming file script) in
  let content := snd (incoming file script) in
  let hook := send_to_webhook rt url w (the_session w) name content in
  let exch := obfuscate_script key w (the_session w) content in
  exists obfuscated,
    result exch = inr obfuscated
    /\ obfuscate rt key url w file script filename
       = (Open (the_session w) :: trace hook ++ trace exch
            ++ [Close (the_session w)],
          inr (package rt filename name obfuscated)).
Proof.
  intros Hin name content hook exch.
  destruct (obfuscate_script_returns key w (the_session w) content)
    as [obfuscated Hres].
  exists obfuscated. split; [exact Hres|].
  unfold obfuscate.
  replace (negb match file with Some _ => true | None => false end
           && negb (truthy_str script)) with false.
  2:{ destruct file; [reflexivity|].
      destruct Hin as [H|H]; [congruence|now rewrite H]. }
  destruct (send_to_webhook_run rt url w (the_session w) name content)
    as [Hhook _].
  fold hook in Hhook. fold exch in Hres.
  subst name content. destruct (incoming file script) as [name content].
  cbn [fst snd] in *.
  unfold with_ClientSession. fold (the_session w). fold hook. fold exch.
  rewrite (M_eta hook), (M_eta exch), Hhook, Hres.
  cbn [bind trace result fst snd]. unfold package.
  destruct (encode obfuscated) as [e|buf]; cbn.
  { now rewrite <- !app_assoc, !app_nil_r. }
  match goal with |- context [make_StreamingResponse ?a ?b ?c] =>
    destruct (make_StreamingResponse a b c) as [e|r] end; cbn;
    now rewrite <- !app_assoc, !app_nil_r.
Qed.

Lemma package_status rt filename name obfuscated :
  status_code_of (package rt filename name obfuscated) = 200%Z
  \/ status_code_of (package rt filename name obfuscated) = 500%Z.
Proof.
  unfold package, error_page, make_StreamingResponse.
  destruct (encode obfuscated); [now right|].
  match goal with |- context [if ?c then _ else _] => destruct c end;
    [now left|now right].
Qed.

Lemma package_download rt filename name obfuscated body media hdrs :
  package rt filename name obfuscated = StreamingResponse body media hdrs ->
  encode obfuscated = inr body
  /\ media = lit "text/plain"
  /\ hdrs = [(lit "Content-Disposition",
              lit "attachment; filename=" ++ QUOTE
              ++ out_name rt filename name ++ QUOTE)].
Proof.
  unfold package, error_page, make_StreamingResponse.
  destruct (encode obfuscated) as [e|buf]; [discriminate|].
  match goal with |- context [if ?c then _ else _] => destruct c end;
    [|discriminate].
  intros H. injection H as <- <- <-. now repeat split.
Qed.

(** C4. The handler answers 400 with the fixed message, without any outbound
    request, when neither content source is supplied; when one is supplied
    it answers with another status and the 400 page is not returned.  A
    content source is supplied when the handler's own test sees it: a file
    object, or pasted text that is not the empty string. *)
Theorem no_input_is_400 rt key url w file script filename :
  (file = None /\ truthy_str script = false ->
   obfuscate rt key url w file script filename = ret NO_INPUT
   /\ status_code_of NO_INPUT = 400%Z)
  /\ (file <> None \/ truthy_str script = true ->
      exists r,
        result (obfuscate rt key url w file script filename) = inr r
        /\ status_code_of r <> 400%Z
        /\ r <> NO_INPUT).
Proof.
  split.
  - intros [-> Hs]. split; [now apply obfuscate_no_input|reflexivity].
  - intros Hin.
    destruct (obfuscate_run rt key url w file script filename Hin)
      as [obfuscated [_ Hrun]].
    rewrite Hrun. eexists. split; [reflexivity|].
    assert (Hst : status_code_of
                    (package rt filename (fst (incoming file script))
                       obfuscated) <> 400%Z).
    { destruct (package_status rt filename (fst (incoming file script))
                  obfuscated) as [H|H]; rewrite H; discriminate. }
    split; [exact Hst|]. intros Heq. apply Hst. now rewrite Heq.
Qed.

Lemma no_input_is_400_witness :
  obfuscate Sample.ascii_runtime Sample.KEY Sample.HOOK Sample.healthy
    None None None = ret NO_INPUT
  /\ exists r,
       result (obfuscate Sample.ascii_runtime Sample.KEY Sample.HOOK
                 Sample.healthy None (Some (lit "x=1")) None) = inr r
       /\ status_code_of r <> 400%Z.
Proof.
  split.
  - apply (proj1 (no_input_is_400 Sample.ascii_runtime Sample.KEY Sample.HOOK
                    Sample.healthy None None None)).
    split; reflexivity.
  - destruct (proj2 (no_input_is_400 Sample.ascii_runtime Sample.KEY
                       Sample.HOOK Sample.healthy None (Some (lit "x=1"))
                       None) (or_intror eq_refl)) as [r [Hr [Hs _]]].
    exists r. split; assumption.
Defined.

(** C9. An empty pasted text with no file is answered exactly as no input
    at all (the 400 page, no outbound request); in every submission an empty
    pasted text behaves as an absent one, and an empty requested filename as
    one that was not given. *)
Theorem empty_string_is_absent rt key url w file script filename :
  obfuscate rt key url w None (Some []) filename = ret NO_INPUT
  /\ obfuscate rt key url w None (Some []) filename
     = obfuscate rt key url w None None filename
  /\ status_code_of NO_INPUT = 400%Z
  /\ obfuscate rt key url w file (Some []) filename
     = obfuscate rt key url w file None filename
  /\ obfuscate rt key url w file script (Some [])
     = obfuscate rt key url w file script None.
Proof.
  repeat split.
Qed.

Lemma obfuscate_script_no_key key w session script :
  truthy_str key = false ->
  obfuscate_script key w session script = ret (VStr script).
Proof. intros H. unfold obfuscate_script. now rewrite H. Qed.

(** C1, as stated, fails: with no credential, an upload holding the single
    byte FF (not valid UTF-8) is answered with status 200 and the three bytes
    EF BF BD. *)
Lemma invalid_utf8_upload_is_rewritten :
  result (obfuscate Sample.ascii_runtime None None Sample.offline
            (Some Sample.not_utf8) None None)
  = inr (StreamingResponse [xef; xbf; xbd] (lit "text/plain")
           [(lit "Content-Disposition",
             lit "attachment; filename=" ++ QUOTE ++ lit "obfuscated_a.lua"
             ++ QUOTE)])
  /\ read Sample.not_utf8 = [xff]
  /\ [xef; xbf; xbd] <> read Sample.not_utf8.
Proof.
  split; [vm_compute; reflexivity|]. split; [reflexivity|]. discriminate.
Qed.

(** C1, amended. With the credential absent, the body of a 200 response is
    the UTF-8 encoding of the content the handler resolved: for a pasted
    script, the encoding of the pasted text; for an upload, the encoding of
    the decoded upload, which is the uploaded bytes themselves whenever those
    are valid UTF-8. *)
Theorem roundtrip_without_credential
    rt key url w file script filename body media hdrs :
  truthy_str key = false ->
  result (obfuscate rt key url w file script filename)
  = inr (StreamingResponse body media hdrs) ->
  match file with
  | None => exists pasted, script = Some pasted /\ utf8_encode pasted = Some body
  | Some f =>
      utf8_encode (utf8_decode_replace (read f)) = Some body
      /\ (valid_utf8 (read f) -> body = read f)
  end.
Proof.
  intros Hkey Hres.
  assert (Hin : file <> None \/ truthy_str script = true).
  { destruct file; [left; discriminate|].
    destruct (truthy_str script) eqn:E; [now right|].
    rewrite (obfuscate_no_input rt key url w script filename E) in Hres.
    discriminate Hres. }
  destruct (obfuscate_run rt key url w file script filename Hin)
    as [obfuscated [Hex Hrun]].
  rewrite Hrun in Hres. cbn [result snd] in Hres. injection Hres as Hpk.
  rewrite obfuscate_script_no_key in Hex by exact Hkey.
  cbn [result ret snd] in Hex. injection Hex as <-.
  apply package_download in Hpk. destruct Hpk as [Henc _].
  assert (Hbody : utf8_encode (snd (incoming file script)) = Some body).
  { cbn [encode] in Henc.
    destruct (utf8_encode (snd (incoming file script)));
      [now injection Henc as ->|discriminate]. }
  destruct file as [f|]; cbn [incoming snd] in Hbody.
  - split; [exact Hbody|].
    intros [s [Hscalar Hs]].
    rewrite (decode_encode s (read f) Hscalar Hs) in Hbody. congruence.
  - destruct Hin as [H|H]; [congruence|].
    destruct script as [[|c s]|]; try discriminate H.
    now exists (c :: s).
Qed.

Lemma roundtrip_without_credential_witness :
  valid_utf8 (read Sample.test_lua)
  /\ utf8_encode (utf8_decode_replace (read Sample.test_lua))
     = Some (read Sample.test_lua).
Proof.
  assert (V : valid_utf8 (read Sample.test_lua)).
  { exists Sample.print_hi. split; vm_compute; reflexivity. }
  split; [exact V|].
  exact (proj1
    (roundtrip_without_credential Sample.ascii_runtime None None
       Sample.offline (Some Sample.test_lua) None None
       (read Sample.test_lua) (lit "text/plain")
       [(lit "Content-Disposition",
         lit "attachment; filename=" ++ QUOTE ++ lit "obfuscated_test.lua"
         ++ QUOTE)]
       eq_refl eq_refl)).
Defined.

(** ** The name of the download *)

Lemma ascii_runtime_lower : lower_ascii_suffix Sample.ascii_runtime.
Proof.
  intros p t _. exists (map ascii_lower p). cbn [lower Sample.ascii_runtime].
  apply map_app.
Qed.

Lemma lower_keeps_ascii_suffix rt p t :
  lower_ascii_suffix rt ->
  forallb is_ascii t = true ->
  endswith (lower rt (p ++ t)) (map ascii_lower t) = true.
Proof.
  intros Hlow Ht. destruct (Hlow p t Ht) as [p' ->]. apply endswith_app.
Qed.

Lemma or_else_not_empty o default :
  default <> [] -> or_else o default <> [].
Proof. intros Hd. destruct o as [[|c s]|]; cbn; congruence. Qed.

Lemma app_lua_neq (s : str) : s <> s ++ lit ".lua".
Proof.
  intros H. apply (f_equal (@List.length N)) in H.
  rewrite length_app in H. cbn in H. lia.
Qed.

Lemma known_suffix_detected rt :
  lower_ascii_suffix rt ->
  forall p suffix,
    In suffix [lit ".lua"; lit ".txt"; lit ".LUA"; lit ".TXT"] ->
    endswith (lower rt (p ++ suffix)) (lit ".lua")
    || endswith (lower rt (p ++ suffix)) (lit ".txt") = true.
Proof.
  intros Hlow p suffix Hs. apply orb_true_iff.
  destruct Hs as [<-|[<-|[<-|[<-|[]]]]].
  - left. now apply (lower_keeps_ascii_suffix rt p (lit ".lua")).
  - right. now apply (lower_keeps_ascii_suffix rt p (lit ".txt")).
  - left. now apply (lower_keeps_ascii_suffix rt p (lit ".LUA")).
  - right. now apply (lower_keeps_ascii_suffix rt p (lit ".TXT")).
Qed.

(** The synthesized name of a source that already ends in ".lua". *)
Lemma out_name_default_lua rt requested stem :
  lower_ascii_suffix rt ->
  truthy_str requested = false ->
  out_name rt requested (stem ++ lit ".lua")
  = lit "obfuscated_" ++ stem ++ lit ".lua".
Proof.
  intros Hlow Hreq. unfold out_name.
  replace (or_else requested (lit "obfuscated_" ++ stem ++ lit ".lua"))
    with ((lit "obfuscated_" ++ stem) ++ lit ".lua").
  2:{ rewrite <- app_assoc. now destruct requested as [[|c s]|]. }
  rewrite (known_suffix_detected rt Hlow) by (now left).
  cbn [negb]. now rewrite <- app_assoc.
Qed.

(** C3. The name before the suffix rule is the requested name when one is
    provided (present and not empty) and otherwise "obfuscated_" followed by
    the source name.  ".lua" is appended, once, exactly when the lowercased
    name ends in neither ".lua" nor ".txt".  Where [str.lower] lowercases an
    ASCII suffix as ASCII, a name ending in ".lua", ".txt", ".LUA" or ".TXT"
    is left as it is, and the result needs no further suffix: running the
    rule on it changes nothing. *)
Theorem out_name_rule rt requested source :
  let base := or_else requested (lit "obfuscated_" ++ source) in
  let has_suffix :=
    endswith (lower rt base) (lit ".lua")
    || endswith (lower rt base) (lit ".txt") in
  (forall name, requested = Some name -> name <> [] -> base = name)
  /\ (truthy_str requested = false -> base = lit "obfuscated_" ++ source)
  /\ (has_suffix = false <-> out_name rt requested source = base ++ lit ".lua")
  /\ (has_suffix = true <-> out_name rt requested source = base)
  /\ (lower_ascii_suffix rt ->
      forall p suffix,
        In suffix [lit ".lua"; lit ".txt"; lit ".LUA"; lit ".TXT"] ->
        base = p ++ suffix ->
        out_name rt requested source = base)
  /\ (lower_ascii_suffix rt ->
      out_name rt (Some (out_name rt requested source)) source
      = out_name rt requested source).
Proof.
  intros base has_suffix.
  assert (Hout : out_name rt requested source
                 = if negb has_suffix then base ++ lit ".lua" else base)
    by reflexivity.
  split; [|split; [|split; [|split; [|split]]]].
  - intros name -> Hne. subst base. destruct name; [congruence|reflexivity].
  - intros Ht. subst base. now destruct requested as [[|c s]|].
  - rewrite Hout. destruct has_suffix; cbn [negb]; split; try congruence.
    intros H. now apply app_lua_neq in H.
  - rewrite Hout. destruct has_suffix; cbn [negb]; split; try congruence.
    intros H. symmetry in H. now apply app_lua_neq in H.
  - intros Hlow p suffix Hs Hb. rewrite Hout.
    replace has_suffix with true; [reflexivity|].
    subst has_suffix. rewrite Hb. symmetry.
    now apply known_suffix_detected.
  - intros Hlow. set (out := out_name rt requested source).
    assert (Hne : out <> []).
    { subst out. rewrite Hout.
      assert (base <> []).
      { apply or_else_not_empty. discriminate. }
      destruct (negb has_suffix); [|assumption].
      destruct base; [congruence|discriminate]. }
    assert (Hor : or_else (Some out)
                    (lit "obfuscated_" ++ source) = out).
    { destruct out; [congruence|reflexivity]. }
    assert (Hsuf : endswith (lower rt out) (lit ".lua")
                   || endswith (lower rt out) (lit ".txt") = true).
    { subst out. rewrite Hout.
      destruct has_suffix eqn:E; cbn [negb]; [exact E|].
      apply known_suffix_detected; [exact Hlow|now left]. }
    unfold out_name at 1. rewrite Hor, Hsuf. reflexivity.
Qed.

Lemma out_name_rule_witness :
  lower_ascii_suffix Sample.ascii_runtime
  /\ out_name Sample.ascii_runtime (Some (lit "out")) (lit "pasted_script.lua")
     = lit "out.lua"
  /\ out_name Sample.ascii_runtime (Some (lit "A.TXT")) (lit "test.lua")
     = lit "A.TXT".
Proof.
  split; [exact ascii_runtime_lower|]. split.
  - apply (proj1 (proj1 (proj2 (proj2
      (out_name_rule Sample.ascii_runtime (Some (lit "out"))
         (lit "pasted_script.lua")))))).
    reflexivity.
  - apply (proj1 (proj2 (proj2 (proj2 (proj2
      (out_name_rule Sample.ascii_runtime (Some (lit "A.TXT"))
         (lit "test.lua"))))))
      ascii_runtime_lower (lit "A") (lit ".TXT")); [cbn; tauto|reflexivity].
Defined.

(** C10. An upload that carries no filename gets the source name
    "uploaded_script.lua"; with no requested output name the download is
    named "obfuscated_uploaded_script.lua", and the handler's response is the
    download under that name whenever the obfuscated text can be encoded. *)
Theorem upload_without_filename rt key url w f script requested :
  lower_ascii_suffix rt ->
  truthy_str (filename f) = false ->
  truthy_str requested = false ->
  let attachment :=
    [(lit "Content-Disposition",
      lit "attachment; filename=" ++ QUOTE
      ++ lit "obfuscated_uploaded_script.lua" ++ QUOTE)] in
  fst (incoming (Some f) script) = lit "uploaded_script.lua"
  /\ out_name rt requested (fst (incoming (Some f) script))
     = lit "obfuscated_uploaded_script.lua"
  /\ exists obfuscated,
       result (obfuscate_script key w (the_session w)
                 (utf8_decode_replace (read f))) = inr obfuscated
       /\ result (obfuscate rt key url w (Some f) script requested)
          = inr (match encode obfuscated with
                 | inr buf =>
                     StreamingResponse buf (lit "text/plain") attachment
                 | inl e => error_page rt e
                 end).
Proof.
  intros Hlow Hname Hreq attachment.
  assert (Hsrc : fst (incoming (Some f) script) = lit "uploaded_script.lua").
  { cbn [incoming fst]. now destruct (filename f) as [[|c s]|]. }
  assert (Hout : out_name rt requested (fst (incoming (Some f) script))
                 = lit "obfuscated_uploaded_script.lua").
  { rewrite Hsrc.
    exact (out_name_default_lua rt requested (lit "uploaded_script")
             Hlow Hreq). }
  split; [exact Hsrc|]. split; [exact Hout|].
  destruct (obfuscate_run rt key url w (Some f) script requested)
    as [obfuscated [Hex Hrun]]; [left; discriminate|].
  exists obfuscated. split; [exact Hex|].
  rewrite Hrun. cbn [result snd]. unfold package. rewrite Hout.
  destruct (encode obfuscated); reflexivity.
Qed.

Lemma upload_without_filename_witness :
  result (obfuscate Sample.ascii_runtime Sample.KEY Sample.HOOK
            Sample.unavailable (Some Sample.unnamed) None None)
  = inr (StreamingResponse (map byte_of_N (lit "x=1")) (lit "text/plain")
           [(lit "Content-Disposition",
             lit "attachment; filename=" ++ QUOTE
             ++ lit "obfuscated_uploaded_script.lua" ++ QUOTE)]).
Proof.
  destruct (upload_without_filename Sample.ascii_runtime Sample.KEY
              Sample.HOOK Sample.unavailable Sample.unnamed None None
              ascii_runtime_lower eq_refl eq_refl)
    as [_ [_ [obfuscated [Hex Hres]]]].
  rewrite Hres.
  assert (obfuscated = VStr (lit "x=1")) as ->.
  { vm_compute in Hex. now injection Hex as <-. }
  reflexivity.
Defined.

(** ** Notifier and exchange inside the handler *)

Lemma obfuscate_script_same_service key w1 w2 s1 s2 script :
  same_obfuscation_service key w1 w2 ->
  result (obfuscate_script key w1 s1 script)
  = result (obfuscate_script key w2 s2 script).
Proof.
  intros Hsame. rewrite !obfuscate_script_run. unfold obfuscate_script_tree.
  destruct (truthy_str key); cbn [negb]; [|reflexivity].
  rewrite <- (Hsame (newscript_request key script))
    by (left; now exists script).
  destruct (respond w1 (newscript_request key script)) as [e|r];
    [reflexivity|].
  destruct (negb (status r =? 200)%Z); [reflexivity|].
  destruct (json r) as [e|data]; [reflexivity|].
  destruct (get data (lit "sessionId") VNone) as [e|session_id];
    [reflexivity|].
  destruct (negb (truthy session_id)); [reflexivity|].
  rewrite <- (Hsame (obfuscate_request key session_id))
    by (right; now exists session_id).
  destruct (respond w1 (obfuscate_request key session_id)) as [e|r2];
    [reflexivity|].
  destruct (negb (status r2 =? 200)%Z); [reflexivity|].
  destruct (json r2) as [e|data2]; [reflexivity|].
  now destruct (get data2 (lit "code") (VStr script)).
Qed.

(** C6. [send_to_webhook] never raises: whatever the webhook does (any
    status, any exception) it returns normally.  And the handler's response
    (status, body, headers) is the same in any two worlds in which the
    obfuscation service behaves alike, whatever the webhook does in either
    and whether or not a webhook is configured. *)
Theorem webhook_never_alters_response
    rt key url1 url2 w1 w2 session name content file script filename :
  result (send_to_webhook rt url1 w1 session name content) = inr tt
  /\ (same_obfuscation_service key w1 w2 ->
      result (obfuscate rt key url1 w1 file script filename)
      = result (obfuscate rt key url2 w2 file script filename)).
Proof.
  split; [apply send_to_webhook_run|].
  intros Hsame.
  destruct file as [f|] eqn:Ef; [|destruct (truthy_str script) eqn:Es].
  3:{ now rewrite !obfuscate_no_input by exact Es. }
  all: rewrite <- Ef.
  all: assert (Hin : file <> None \/ truthy_str script = true)
         by (subst file; first [left; discriminate | now right]).
  all: destruct (obfuscate_run rt key url1 w1 file script filename Hin)
         as [o1 [Hex1 Hrun1]];
       destruct (obfuscate_run rt key url2 w2 file script filename Hin)
         as [o2 [Hex2 Hrun2]];
       rewrite Hrun1, Hrun2; cbn [result snd];
       rewrite (obfuscate_script_same_service key w1 w2 (the_session w1)
                  (the_session w2) _ Hsame) in Hex1;
       congruence.
Qed.

Lemma webhook_never_alters_response_witness :
  same_obfuscation_service Sample.KEY Sample.healthy
    Sample.healthy_webhook_down
  /\ result (obfuscate Sample.ascii_runtime Sample.KEY Sample.HOOK
               Sample.healthy (Some Sample.test_lua) None None)
     = result (obfuscate Sample.ascii_runtime Sample.KEY Sample.HOOK
                 Sample.healthy_webhook_down (Some Sample.test_lua) None None).
Proof.
  assert (S : same_obfuscation_service Sample.KEY Sample.healthy
                Sample.healthy_webhook_down).
  { intros r [[script ->]|[sid ->]]; reflexivity. }
  split; [exact S|].
  exact (proj2 (webhook_never_alters_response Sample.ascii_runtime Sample.KEY
                  Sample.HOOK Sample.HOOK Sample.healthy
                  Sample.healthy_webhook_down
                  (the_session Sample.healthy) [] []
                  (Some Sample.test_lua) None None) S).
Defined.

Lemma obfuscate_script_events key w session script :
  Forall (obfuscation_event key session)
    (trace (obfuscate_script key w session script))
  /\ (forall s r posted,
        In (Post s r) (trace (obfuscate_script key w session script)) ->
        body r = Data posted -> posted = script).
Proof.
  rewrite obfuscate_script_run. unfold obfuscate_script_tree.
  assert (E1 : obfuscation_event key session
                 (Post session (newscript_request key script))).
  { eexists. split; [reflexivity|]. left. now exists script. }
  assert (E2 : forall sid, obfuscation_event key session
                 (Post session (obfuscate_request key sid))).
  { intros sid. eexists. split; [reflexivity|]. right. now exists sid. }
  assert (D : forall s r posted sid,
             In (Post s r)
                [Post session (newscript_request key script);
                 Post session (obfuscate_request key sid)] ->
             body r = Data posted -> posted = script).
  { intros s r posted sid [H|[H|[]]] Hb; injection H as <- <-;
      cbn in Hb; congruence. }
  assert (D1 : forall s r posted,
             In (Post s r) [Post session (newscript_request key script)] ->
             body r = Data posted -> posted = script).
  { intros s r posted [H|[]] Hb. injection H as <- <-. cbn in Hb.
    congruence. }
  repeat match goal with
         | |- context [match ?x with _ => _ end] => destruct x
         end; cbn [trace fst];
    (split; [repeat constructor; auto | eauto; try (intros ? ? ? []) ]).
Qed.

(** C7. In every handled submission the outbound events are, in order: the
    session is opened; the notifier's requests; the exchange's requests; the
    session is closed.  Every request of either is made on that one session,
    and the exchange is the run of [obfuscate_script] on the resolved content
    (the text it posts is that content), whatever the notifier met. *)
Theorem notify_then_obfuscate rt key url w file script filename :
  file <> None \/ truthy_str script = true ->
  let name := fst (incoming file script) in
  let content := snd (incoming file script) in
  let hook := trace (send_to_webhook rt url w (the_session w) name content) in
  let exch := trace (obfuscate_script key w (the_session w) content) in
  trace (obfuscate rt key url w file script filename)
  = Open (the_session w) :: hook ++ exch ++ [Close (the_session w)]
  /\ Forall (webhook_event (the_session w)) hook
  /\ Forall (obfuscation_event key (the_session w)) exch
  /\ (forall s r posted,
        In (Post s r) exch -> body r = Data posted -> posted = content).
Proof.
  intros Hin name content hook exch.
  destruct (obfuscate_run rt key url w file script filename Hin)
    as [obfuscated [_ Hrun]].
  split; [now rewrite Hrun|].
  split.
  - subst hook.
    destruct (send_to_webhook_run rt url w (the_session w) name content)
      as [_ [->|[r [fields [-> Hb]]]]]; constructor; [|constructor].
    now exists r, fields.
  - apply obfuscate_script_events.
Qed.

Lemma notify_then_obfuscate_witness :
  trace (obfuscate Sample.ascii_runtime Sample.KEY Sample.HOOK
           Sample.healthy_webhook_down None (Some (lit "x=1")) None)
  = Open (the_session Sample.healthy_webhook_down)
    :: trace (send_to_webhook Sample.ascii_runtime Sample.HOOK
                Sample.healthy_webhook_down
                (the_session Sample.healthy_webhook_down)
                (lit "pasted_script.lua") (lit "x=1"))
    ++ trace (obfuscate_script Sample.KEY Sample.healthy_webhook_down
                (the_session Sample.healthy_webhook_down) (lit "x=1"))
    ++ [Close (the_session Sample.healthy_webhook_down)].
Proof.
  exact (proj1 (notify_then_obfuscate Sample.ascii_runtime Sample.KEY
                  Sample.HOOK Sample.healthy_webhook_down None
                  (Some (lit "x=1")) None (or_intror eq_refl))).
Defined.

(** C8. An uploaded file takes precedence: its bytes, decoded with
    undecodable bytes replaced, are the content, and its filename is the
    source name; the pasted text plays no part, in the resolution or in
    anything the handler then does.  Decoding cannot fail: bytes that are the
    encoding of a text decode to that text, and a byte that is not valid
    UTF-8 becomes U+FFFD, so the content can always be encoded again.
    Without a file, the pasted text is the content and the source name is
    "pasted_script.lua". *)
Theorem file_takes_precedence rt key url w f script script' requested :
  snd (incoming (Some f) script) = utf8_decode_replace (read f)
  /\ (forall name, filename f = Some name -> name <> [] ->
        fst (incoming (Some f) script) = name)
  /\ incoming (Some f) script = incoming (Some f) script'
  /\ obfuscate rt key url w (Some f) script requested
     = obfuscate rt key url w (Some f) script' requested
  /\ (forall s, forallb is_scalar s = true ->
        utf8_encode s = Some (read f) ->
        snd (incoming (Some f) script) = s)
  /\ utf8_decode_replace [xff] = [REPLACEMENT]
  /\ (exists raw, utf8_encode (snd (incoming (Some f) script)) = Some raw)
  /\ (forall pasted, script = Some pasted ->
        incoming None script = (lit "pasted_script.lua", pasted)).
Proof.
  split; [reflexivity|]. split.
  { intros name Hn Hne. cbn [incoming fst]. rewrite Hn.
    destruct name; [congruence|reflexivity]. }
  split; [reflexivity|]. split; [reflexivity|]. split.
  { intros s Hs He. cbn [incoming snd]. now apply decode_encode. }
  split; [reflexivity|]. split; [apply decode_then_encode|].
  intros pasted ->. cbn [incoming]. now destruct pasted.
Qed.

Lemma file_takes_precedence_witness :
  fst (incoming (Some Sample.test_lua) (Some (lit "x=1"))) = lit "test.lua"
  /\ snd (incoming (Some Sample.test_lua) (Some (lit "x=1")))
     = Sample.print_hi
  /\ incoming None (Some (lit "x=1")) = (lit "pasted_script.lua", lit "x=1").
Proof.
  pose proof (file_takes_precedence Sample.ascii_runtime None None
                Sample.offline Sample.test_lua (Some (lit "x=1")) None None)
    as [_ [Hname [_ [_ [Hvalid [_ [_ Hpasted]]]]]]].
  split; [apply Hname; [reflexivity|discriminate]|].
  split; [apply Hvalid; vm_compute; reflexivity|].
  apply (Hpasted (lit "x=1")). reflexivity.
Defined.

(** ** The scenarios of the specification, run on the model *)

(** Scenario A: upload test.lua holding print("hi"), no filename, nothing
    configured. *)
Example scenario_A :
  result (obfuscate Sample.ascii_runtime None None Sample.offline
            (Some Sample.test_lua) None None)
  = inr (StreamingResponse (map byte_of_N Sample.print_hi) (lit "text/plain")
           [(lit "Content-Disposition",
             lit "attachment; filename=" ++ QUOTE ++ lit "obfuscated_test.lua"
             ++ QUOTE)]).
Proof. vm_compute. reflexivity. Qed.

(** Scenario B: pasted x=1, requested filename out, nothing configured. *)
Example scenario_B :
  result (obfuscate Sample.ascii_runtime None None Sample.offline
            None (Some (lit "x=1")) (Some (lit "out")))
  = inr (StreamingResponse (map byte_of_N (lit "x=1")) (lit "text/plain")
           [(lit "Content-Disposition",
             lit "attachment; filename=" ++ QUOTE ++ lit "out.lua" ++ QUOTE)]).
Proof. vm_compute. reflexivity. Qed.

(** Scenario C: neither file nor text. *)
Example scenario_C :
  obfuscate Sample.ascii_runtime Sample.KEY Sample.HOOK Sample.healthy
    None None None
  = ret NO_INPUT.
Proof. reflexivity. Qed.

(** Scenario D: the service returns transformed code; three requests go out
    (webhook, newscript, obfuscate) between opening and closing the
    session. *)
Example scenario_D :
  result (obfuscate Sample.ascii_runtime Sample.KEY Sample.HOOK Sample.healthy
            (Some Sample.test_lua) None None)
  = inr (StreamingResponse (map byte_of_N (lit "return 1")) (lit "text/plain")
           [(lit "Content-Disposition",
             lit "attachment; filename=" ++ QUOTE ++ lit "obfuscated_test.lua"
             ++ QUOTE)])
  /\ List.length
       (trace (obfuscate Sample.ascii_runtime Sample.KEY Sample.HOOK
                 Sample.healthy (Some Sample.test_lua) None None)) = 5%nat.
Proof. split; vm_compute; reflexivity. Qed.

(** * Further properties *)

(** ** Further properties of the obfuscation client *)

(** X1. The transform request is made exactly when the key is configured and
    the first step established a session; the identifier it carries is the
    one the service gave. *)
Theorem transform_requested_iff key w session script session_id :
  In (Post session (obfuscate_request key session_id))
     (trace (obfuscate_script key w session script))
  <-> truthy_str key = true /\ session_established key w script session_id.
Proof.
  rewrite obfuscate_script_run. unfold obfuscate_script_tree,
    session_established.
  split.
  - destruct (truthy_str key); cbn [negb]; [|intros []].
    intros Hin. split; [reflexivity|].
    destruct (respond w (newscript_request key script)) as [e|r] eqn:E1.
    { destruct Hin as [H|[]]. discriminate H. }
    destruct (Z.eqb_spec (status r) 200) as [Hs|Hs]; cbn [negb] in Hin.
    2:{ destruct Hin as [H|[]]. discriminate H. }
    destruct (json r) as [e|data] eqn:Ej.
    { destruct Hin as [H|[]]. discriminate H. }
    destruct (get data (lit "sessionId") VNone) as [e|sid] eqn:Eg.
    { destruct Hin as [H|[]]. discriminate H. }
    destruct (truthy sid) eqn:Et; cbn [negb] in Hin.
    2:{ destruct Hin as [H|[]]. discriminate H. }
    assert (Hsid : sid = session_id).
    { assert (Hin' : In (Post session (obfuscate_request key session_id))
                        [Post session (newscript_request key script);
                         Post session (obfuscate_request key sid)]).
      { repeat match type of Hin with
               | context [match ?x with _ => _ end] => destruct x
               end; exact Hin. }
      destruct Hin' as [H|[H|[]]]; [discriminate H|].
      now injection H. }
    subst sid. exists r, data. now repeat split.
  - intros [Hkey [r [data [E1 [Hs [Ej [Eg Et]]]]]]].
    rewrite Hkey, E1, Hs, Z.eqb_refl, Ej, Eg, Et. cbn [negb].
    repeat match goal with
           | |- context [match ?x with _ => _ end] => destruct x
           end; cbn; auto.
Qed.

Lemma transform_requested_iff_witness :
  In (Post (the_session Sample.healthy)
        (obfuscate_request Sample.KEY (VStr (lit "abc"))))
     (trace (obfuscate_script Sample.KEY Sample.healthy
               (the_session Sample.healthy) (lit "x=1")))
  /\ ~ In (Post (the_session Worlds.zero_session)
             (obfuscate_request Sample.KEY (VInt 0)))
          (trace (obfuscate_script Sample.KEY Worlds.zero_session
                    (the_session Worlds.zero_session) (lit "x=1"))).
Proof.
  split.
  - apply (proj2 (transform_requested_iff Sample.KEY Sample.healthy
                    (the_session Sample.healthy) (lit "x=1")
                    (VStr (lit "abc")))).
    split; [reflexivity|].
    eexists; eexists. repeat split; reflexivity.
  - intros H.
    apply (proj1 (transform_requested_iff Sample.KEY Worlds.zero_session
                    (the_session Worlds.zero_session) (lit "x=1")
                    (VInt 0))) in H.
    destruct H as [_ [r [data [_ [_ [_ [_ Ht]]]]]]]. discriminate Ht.
Defined.

(** X2. When both steps answer 200 and the second body is a JSON object, the
    result is the value under "code", or the original script when the object
    has no "code"; exactly the two requests were made, in order. *)
Theorem exchange_success key w session script r data session_id r2 items :
  truthy_str key = true ->
  respond w (newscript_request key script) = PostResponds r ->
  status r = 200%Z ->
  json r = inr data ->
  get data (lit "sessionId") VNone = inr session_id ->
  truthy session_id = true ->
  respond w (obfuscate_request key session_id) = PostResponds r2 ->
  status r2 = 200%Z ->
  json r2 = inr (VDict items) ->
  result (obfuscate_script key w session script)
  = inr (match lookup (lit "code") items with
         | Some code => code
         | None => VStr script
         end)
  /\ trace (obfuscate_script key w session script)
     = [Post session (newscript_request key script);
        Post session (obfuscate_request key session_id)].
Proof.
  intros Hkey E1 Hs Ej Eg Et E2 Hs2 Ej2.
  rewrite obfuscate_script_run. unfold obfuscate_script_tree.
  rewrite Hkey, E1, Hs, Ej, Eg, Et, E2, Hs2, Ej2. cbn.
  split; reflexivity.
Qed.

Lemma exchange_success_witness :
  result (obfuscate_script Sample.KEY Sample.healthy
            (the_session Sample.healthy) (lit "x=1"))
  = inr (VStr (lit "return 1")).
Proof.
  exact (proj1 (exchange_success Sample.KEY Sample.healthy
                  (the_session Sample.healthy) (lit "x=1")
                  {| status := 200; text := inr [];
                     json := inr (VDict [(lit "sessionId",
                                          VStr (lit "abc"))]) |}
                  (VDict [(lit "sessionId", VStr (lit "abc"))])
                  (VStr (lit "abc"))
                  {| status := 200; text := inr [];
                     json := inr (VDict [(lit "code",
                                          VStr (lit "return 1"))]) |}
                  [(lit "code", VStr (lit "return 1"))]
                  eq_refl eq_refl eq_refl eq_refl eq_refl eq_refl eq_refl
                  eq_refl eq_refl)).
Defined.

(** X3. No retries: the exchange makes at most two requests, the notifier at
    most one, and a whole submission at most three, between one opening and
    one closing of the session. *)
Theorem no_retries rt key url w session name content file script filename :
  (List.length (trace (obfuscate_script key w session content)) <= 2)%nat
  /\ (List.length (trace (send_to_webhook rt url w session name content))
      <= 1)%nat
  /\ (List.length (posts (trace (obfuscate rt key url w file script filename)))
      <= 3)%nat.
Proof.
  assert (Hex : forall s c,
            (List.length (trace (obfuscate_script key w s c)) <= 2)%nat).
  { intros s c. rewrite obfuscate_script_run. unfold obfuscate_script_tree.
    repeat match goal with
           | |- context [match ?x with _ => _ end] => destruct x
           end; cbn; lia. }
  assert (Hhook : forall s n c,
            (List.length (trace (send_to_webhook rt url w s n c)) <= 1)%nat).
  { intros s n c.
    destruct (send_to_webhook_run rt url w s n c)
      as [_ [->|[r [fields [-> _]]]]]; cbn; lia. }
  split; [apply Hex|]. split; [apply Hhook|].
  destruct file as [f|] eqn:Ef; [|destruct (truthy_str script) eqn:Es].
  3:{ rewrite obfuscate_no_input by exact Es. cbn. lia. }
  all: rewrite <- Ef.
  all: assert (Hin : file <> None \/ truthy_str script = true)
         by (subst file; first [left; discriminate | now right]).
  all: destruct (obfuscate_run rt key url w file script filename Hin)
         as [o [_ Hrun]]; rewrite Hrun; cbn [trace fst posts].
  all: assert (Hposts : forall t, (List.length (posts t) <= List.length t)%nat)
         by (induction t as [|[]]; cbn; lia).
  all: assert (Happ : forall a b, posts (a ++ b) = posts a ++ posts b)
         by (induction a as [|[]]; intros; cbn; rewrite ?IHa; reflexivity).
  all: rewrite !Happ, !length_app; cbn [posts List.length];
       pose proof (Hposts (trace (send_to_webhook rt url w (the_session w)
                                    (fst (incoming file script))
                                    (snd (incoming file script)))));
       pose proof (Hposts (trace (obfuscate_script key w (the_session w)
                                    (snd (incoming file script)))));
       pose proof (Hex (the_session w) (snd (incoming file script)));
       pose proof (Hhook (the_session w) (fst (incoming file script))
                     (snd (incoming file script)));
       lia.
Qed.

(** ** Further properties of the notifier *)

Lemma send_to_webhook_sends rt url w session name content target raw :
  url = Some target -> target <> [] ->
  utf8_encode content = Some raw ->
  trace (send_to_webhook rt url w session name content)
  = [Post session (webhook_request rt target name raw)].
Proof.
  intros -> Hne Henc. unfold send_to_webhook.
  destruct target as [|c target]; [congruence|]. cbn [truthy_str negb].
  rewrite try_except_ret. cbn [trace fst]. rewrite bind_lift.
  cbn [encode]. rewrite Henc. rewrite bind_post.
  fold (webhook_request rt (c :: target) name raw).
  cbn [or_else].
  match goal with |- context [respond w ?r] => destruct (respond w r) end;
    [reflexivity|].
  cbn [fst]. f_equal.
  match goal with |- context [if ?c then _ else _] => destruct c end;
    [|reflexivity].
  rewrite bind_lift. now destruct (text r).
Qed.

(** X4. [send_to_webhook] sends nothing exactly when no webhook URL is
    configured (unset or empty) or the content cannot be encoded as UTF-8;
    in both cases it still returns normally. *)
Theorem webhook_skipped_iff rt url w session name content :
  trace (send_to_webhook rt url w session name content) = []
  <-> truthy_str url = false \/ utf8_encode content = None.
Proof.
  split.
  - intros Ht.
    destruct url as [[|c target]|]; [now left|idtac|now left].
    destruct (utf8_encode content) as [raw|] eqn:Henc; [|now right].
    pose proof (eq_trans (eq_sym Ht)
                  (send_to_webhook_sends rt (Some (c :: target)) w session
                     name content (c :: target) raw eq_refl
                     ltac:(discriminate) Henc)) as Hs.
    discriminate Hs.
  - intros [Hu|Henc]; unfold send_to_webhook.
    + now rewrite Hu.
    + destruct (truthy_str url); cbn [negb]; [|reflexivity].
      rewrite try_except_ret. cbn [trace fst]. rewrite bind_lift.
      cbn [encode]. now rewrite Henc.
Qed.

Lemma webhook_skipped_iff_witness :
  trace (send_to_webhook Sample.ascii_runtime Sample.HOOK Sample.healthy
           (the_session Sample.healthy) (lit "a.lua") [0xD800]) = []
  /\ trace (send_to_webhook Sample.ascii_runtime (Some []) Sample.healthy
              (the_session Sample.healthy) (lit "a.lua") (lit "x=1")) = [].
Proof.
  split.
  - apply (proj2 (webhook_skipped_iff Sample.ascii_runtime Sample.HOOK
                    Sample.healthy (the_session Sample.healthy)
                    (lit "a.lua") [0xD800])).
    right. reflexivity.
  - apply (proj2 (webhook_skipped_iff Sample.ascii_runtime (Some [])
                    Sample.healthy (the_session Sample.healthy)
                    (lit "a.lua") (lit "x=1"))).
    left. reflexivity.
Defined.

Lemma posts_app a b : posts (a ++ b) = posts a ++ posts b.
Proof.
  induction a as [|[] a IH]; cbn; rewrite ?IH; reflexivity.
Qed.



(** ** Further properties of the handler *)

(** X6. The handler never raises: every submission gets a response, and its
    status is 200, 400 or 500. *)
Theorem obfuscate_always_responds rt key url w file script filename :
  exists r,
    result (obfuscate rt key url w file script filename) = inr r
    /\ (status_code_of r = 200%Z \/ status_code_of r = 400%Z
        \/ status_code_of r = 500%Z).
Proof.
  destruct file as [f|] eqn:Ef; [|destruct (truthy_str script) eqn:Es].
  3:{ rewrite obfuscate_no_input by exact Es. exists NO_INPUT.
      split; [reflexivity|]. right. left. reflexivity. }
  all: rewrite <- Ef.
  all: assert (Hin : file <> None \/ truthy_str script = true)
         by (subst file; first [left; discriminate | now right]).
  all: destruct (obfuscate_run rt key url w file script filename Hin)
         as [o [_ Hrun]]; rewrite Hrun; eexists; split; [reflexivity|].
  all: destruct (package_status rt filename (fst (incoming file script)) o)
         as [H|H]; rewrite H; tauto.
Qed.

Lemma handled_or_not (file : option UploadFile) (script : option str) :
  (file = None /\ truthy_str script = false)
  \/ (file <> None \/ truthy_str script = true).
Proof.
  destruct file; [right; left; discriminate|].
  destruct (truthy_str script); [right; now right|left; now split].
Qed.

(** X7. Whatever a 200 response carries is the UTF-8 encoding of the text
    [obfuscate_script] returned for the resolved content, served as
    text/plain under the computed download name. *)
Theorem download_is_encoded_result
    rt key url w file script filename body media hdrs :
  result (obfuscate rt key url w file script filename)
  = inr (StreamingResponse body media hdrs) ->
  exists code,
    result (obfuscate_script key w (the_session w) (snd (incoming file script)))
    = inr (VStr code)
    /\ utf8_encode code = Some body
    /\ media = lit "text/plain"
    /\ hdrs = [(lit "Content-Disposition",
                lit "attachment; filename=" ++ QUOTE
                ++ out_name rt filename (fst (incoming file script))
                ++ QUOTE)].
Proof.
  intros Hres.
  destruct (handled_or_not file script) as [[-> Hs]|Hin].
  { rewrite obfuscate_no_input in Hres by exact Hs. discriminate Hres. }
  destruct (obfuscate_run rt key url w file script filename Hin)
    as [o [Hex Hrun]].
  rewrite Hrun in Hres. cbn [result snd] in Hres. injection Hres as Hpk.
  apply package_download in Hpk. destruct Hpk as [Henc [Hm Hh]].
  destruct o as [| | | |code| |]; try discriminate Henc.
  exists code. split; [exact Hex|]. split; [|now split].
  cbn [encode] in Henc. destruct (utf8_encode code); [|discriminate].
  now injection Henc as ->.
Qed.

Lemma download_is_encoded_result_witness :
  exists code,
    result (obfuscate_script Sample.KEY Sample.healthy
              (the_session Sample.healthy)
              (snd (incoming (Some Sample.test_lua) None)))
    = inr (VStr code)
    /\ utf8_encode code = Some (map byte_of_N (lit "return 1")).
Proof.
  assert (R : result (obfuscate Sample.ascii_runtime Sample.KEY Sample.HOOK
                        Sample.healthy (Some Sample.test_lua) None None)
              = inr (StreamingResponse (map byte_of_N (lit "return 1"))
                       (lit "text/plain")
                       [(lit "Content-Disposition",
                         lit "attachment; filename=" ++ QUOTE
                         ++ lit "obfuscated_test.lua" ++ QUOTE)]))
    by (vm_compute; reflexivity).
  destruct (download_is_encoded_result _ _ _ _ _ _ _ _ _ _ R)
    as [code [H1 [H2 _]]].
  exists code. split; assumption.
Defined.

(** X8. When the service puts something other than a string under "code"
    (or the exchange otherwise returns a non-string), the handler answers
    with the 500 page for the failed [encode] call. *)
Theorem non_string_code_is_500 rt key url w file script filename v :
  file <> None \/ truthy_str script = true ->
  result (obfuscate_script key w (the_session w) (snd (incoming file script)))
  = inr v ->
  (forall s, v <> VStr s) ->
  result (obfuscate rt key url w file script filename)
  = inr (error_page rt (AttributeError v (lit "encode")))
  /\ status_code_of (error_page rt (AttributeError v (lit "encode")))
     = 500%Z.
Proof.
  intros Hin Hex Hv.
  destruct (obfuscate_run rt key url w file script filename Hin)
    as [o [Hex' Hrun]].
  rewrite Hex in Hex'. injection Hex' as <-.
  rewrite Hrun. cbn [result snd]. split; [|reflexivity].
  unfold package. destruct v; try reflexivity.
  now destruct (Hv s).
Qed.

Lemma non_string_code_is_500_witness :
  result (obfuscate Sample.ascii_runtime Sample.KEY Sample.HOOK
            Worlds.null_code None (Some (lit "x=1")) None)
  = inr (error_page Sample.ascii_runtime
           (AttributeError VNone (lit "encode"))).
Proof.
  assert (I : @None UploadFile <> None \/ truthy_str (Some (lit "x=1")) = true)
    by (right; reflexivity).
  assert (E : result (obfuscate_script Sample.KEY Worlds.null_code
                        (the_session Worlds.null_code)
                        (snd (incoming None (Some (lit "x=1")))))
              = inr VNone) by (vm_compute; reflexivity).
  assert (V : forall s, VNone <> VStr s) by (intros s; discriminate).
  exact (proj1 (non_string_code_is_500 Sample.ascii_runtime Sample.KEY
                  Sample.HOOK Worlds.null_code None (Some (lit "x=1")) None
                  VNone I E V)).
Defined.

Lemma exchange_fails_fallback key w session script :
  exchange_fails key w script ->
  result (obfuscate_script key w session script) = inr (VStr script).
Proof.
  intros Hfail. rewrite obfuscate_script_run. unfold obfuscate_script_tree.
  destruct (truthy_str key); cbn [negb]; [|reflexivity].
  destruct Hfail as
    [ e H1 | r H1 Hs | r e H1 Hj | r data e H1 Hj Hg
    | r data sid H1 Hj Hg Ht | r data sid e H1 Hj Hg H2
    | r data sid r2 H1 Hj Hg H2 Hs2 | r data sid r2 e H1 Hj Hg H2 Hj2
    | r data sid r2 data2 e H1 Hj Hg H2 Hj2 Hg2 ];
    rewrite H1; try reflexivity;
    (destruct (Z.eqb_spec (status r) 200); cbn [negb]; [|reflexivity]);
    try contradiction;
    rewrite ?Hj, ?Hg, ?Ht; cbn [negb]; try reflexivity;
    destruct (truthy sid); cbn [negb]; try reflexivity;
    rewrite H2; try reflexivity;
    (destruct (Z.eqb_spec (status r2) 200); cbn [negb]; [|reflexivity]);
    try contradiction;
    rewrite ?Hj2, ?Hg2; reflexivity.
Qed.

(** X9. Graceful degradation: when the exchange fails in any way, the
    response is the very one the handler gives with no key configured. *)
Theorem degraded_equals_unconfigured rt key url w file script filename :
  exchange_fails key w (snd (incoming file script)) ->
  result (obfuscate rt key url w file script filename)
  = result (obfuscate rt None url w file script filename).
Proof.
  intros Hfail.
  destruct (handled_or_not file script) as [[-> Hs]|Hin].
  { now rewrite !obfuscate_no_input by exact Hs. }
  destruct (obfuscate_run rt key url w file script filename Hin)
    as [o1 [Hex1 Hrun1]].
  destruct (obfuscate_run rt None url w file script filename Hin)
    as [o2 [Hex2 Hrun2]].
  rewrite Hrun1, Hrun2. cbn [result snd].
  rewrite (exchange_fails_fallback key w (the_session w) _ Hfail) in Hex1.
  rewrite obfuscate_script_no_key in Hex2 by reflexivity.
  cbn [result ret snd] in Hex2. congruence.
Qed.

Lemma degraded_equals_unconfigured_witness :
  result (obfuscate Sample.ascii_runtime Sample.KEY Sample.HOOK
            Sample.unavailable None (Some (lit "x=1")) None)
  = result (obfuscate Sample.ascii_runtime None Sample.HOOK
              Sample.unavailable None (Some (lit "x=1")) None).
Proof.
  assert (F : exchange_fails Sample.KEY Sample.unavailable
                (snd (incoming None (Some (lit "x=1"))))).
  { eapply newscript_not_200; [reflexivity|]. cbn. discriminate. }
  exact (degraded_equals_unconfigured Sample.ascii_runtime Sample.KEY
           Sample.HOOK Sample.unavailable None (Some (lit "x=1")) None F).
Defined.

(** X10. Without a key, what the handler serves for an upload is a fixed
    point: uploading the served bytes again under the same filename is
    answered with the same response, whatever the webhook or the pasted
    text. *)
Theorem reupload_is_stable
    rt key url url' w w' f script script' requested body media hdrs :
  truthy_str key = false ->
  result (obfuscate rt key url w (Some f) script requested)
  = inr (StreamingResponse body media hdrs) ->
  result (obfuscate rt key url' w'
            (Some {| filename := filename f; read := body |})
            script' requested)
  = inr (StreamingResponse body media hdrs).
Proof.
  intros Hkey Hres.
  destruct (obfuscate_run rt key url w (Some f) script requested)
    as [o [Hex Hrun]]; [left; discriminate|].
  rewrite Hrun in Hres. cbn [result snd] in Hres. injection Hres as Hpk.
  rewrite obfuscate_script_no_key in Hex by exact Hkey.
  cbn [result ret snd] in Hex. injection Hex as <-.
  cbn [incoming fst snd] in Hpk.
  assert (Henc : utf8_encode (utf8_decode_replace (read f)) = Some body).
  { apply package_download in Hpk. destruct Hpk as [Henc _].
    cbn [encode] in Henc.
    destruct (utf8_encode (utf8_decode_replace (read f)));
      [now injection Henc as ->|discriminate]. }
  destruct (obfuscate_run rt key url' w'
              (Some {| filename := filename f; read := body |})
              script' requested) as [o' [Hex' Hrun']]; [left; discriminate|].
  rewrite Hrun'. cbn [result snd]. f_equal.
  rewrite obfuscate_script_no_key in Hex' by exact Hkey.
  cbn [result ret snd] in Hex'. injection Hex' as <-.
  cbn [incoming fst snd filename read].
  rewrite (decode_encode (utf8_decode_replace (read f)) body
             (decode_scalar (read f)) Henc).
  exact Hpk.
Qed.

Lemma reupload_is_stable_witness :
  result (obfuscate Sample.ascii_runtime None None Sample.offline
            (Some {| filename := filename Worlds.mixed;
                     read := [x41; xef; xbf; xbd; x42] |})
            None None)
  = inr (StreamingResponse [x41; xef; xbf; xbd; x42] (lit "text/plain")
           [(lit "Content-Disposition",
             lit "attachment; filename=" ++ QUOTE ++ lit "obfuscated_m.lua"
             ++ QUOTE)]).
Proof.
  assert (R : result (obfuscate Sample.ascii_runtime None Sample.HOOK
                        Sample.healthy (Some Worlds.mixed) None None)
              = inr (StreamingResponse [x41; xef; xbf; xbd; x42]
                       (lit "text/plain")
                       [(lit "Content-Disposition",
                         lit "attachment; filename=" ++ QUOTE
                         ++ lit "obfuscated_m.lua" ++ QUOTE)]))
    by (vm_compute; reflexivity).
  exact (reupload_is_stable Sample.ascii_runtime None Sample.HOOK None
           Sample.healthy Sample.offline Worlds.mixed None None None
           _ _ _ eq_refl R).
Defined.

(** ** Size of what is served *)

Lemma encode_cp_length c : List.length (encode_cp c) = cp_size c.
Proof.
  unfold encode_cp, cp_size.
  destruct (c <? 0x80); [reflexivity|].
  destruct (c <? 0x800); [reflexivity|].
  destruct (c <? 0x10000); reflexivity.
Qed.

Lemma utf8_encode_length s : forall body,
  utf8_encode s = Some body -> List.length body = utf8_size s.
Proof.
  induction s as [|c s IH]; intros body He.
  - now injection He as <-.
  - cbn [utf8_encode] in He. destruct (is_surrogate c); [discriminate|].
    destruct (utf8_encode s) as [bs|]; [|discriminate].
    injection He as <-. rewrite length_app, encode_cp_length.
    cbn [utf8_size]. now rewrite (IH bs eq_refl).
Qed.

Lemma cp_size_le c : (1 <= cp_size c <= 4)%nat.
Proof.
  unfold cp_size.
  destruct (c <? 0x80); [lia|].
  destruct (c <? 0x800); [lia|].
  destruct (c <? 0x10000); lia.
Qed.

Lemma decode_size_bounded n :
  forall s, (List.length s <= n)%nat ->
    (utf8_size (utf8_decode_replace s) <= 3 * List.length s)%nat.
Proof.
  induction n as [|n IH]; intros s Hlen.
  - destruct s; [cbn; lia|cbn in Hlen; lia].
  - destruct s as [|b1 s1]; [cbn; lia|].
    rewrite decode_cons. cbv zeta. unfold is_continuation.
    split_conds; cbn [utf8_size List.length] in *;
      change (cp_size REPLACEMENT) with 3%nat;
      repeat match goal with
      | |- context [utf8_size (utf8_decode_replace ?l)] =>
          lazymatch goal with
          | H : (utf8_size (utf8_decode_replace l) <= _)%nat |- _ => fail
          | _ => pose proof (IH l ltac:(cbn [List.length] in *; lia))
          end
      end;
      cbn [List.length] in *;
      repeat match goal with
      | |- context [cp_size ?c] =>
          lazymatch goal with
          | H : (1 <= cp_size c <= 4)%nat |- _ => fail
          | _ => pose proof (cp_size_le c)
          end
      end;
      try lia.
    (* one byte read, below 0x80: one byte written *)
    all: unfold cp_size in *;
      match goal with
      | H : Byte.to_N _ < 128 |- _ =>
          rewrite (proj2 (N.ltb_lt _ _) H) in *
      end; lia.
Qed.

Lemma utf8_size_bounds s :
  (List.length s <= utf8_size s <= 4 * List.length s)%nat.
Proof.
  induction s as [|c s IH]; cbn [utf8_size List.length]; [lia|].
  pose proof (cp_size_le c). lia.
Qed.

(** X11. Without a key, the body served for an upload is at most three times
    as long as the upload (an undecodable byte becomes the three bytes of
    U+FFFD), and the body served for a pasted text has between one and four
    bytes per code point. *)
Theorem served_size_bound
    rt key url w file script filename body media hdrs :
  truthy_str key = false ->
  result (obfuscate rt key url w file script filename)
  = inr (StreamingResponse body media hdrs) ->
  match file with
  | Some f => (List.length body <= 3 * List.length (read f))%nat
  | None =>
      forall pasted, script = Some pasted ->
        (List.length pasted <= List.length body <= 4 * List.length pasted)%nat
  end.
Proof.
  intros Hkey Hres.
  destruct (handled_or_not file script) as [[-> Hs]|Hin].
  { rewrite obfuscate_no_input in Hres by exact Hs. discriminate Hres. }
  destruct (obfuscate_run rt key url w file script filename Hin)
    as [o [Hex Hrun]].
  rewrite Hrun in Hres. cbn [result snd] in Hres. injection Hres as Hpk.
  rewrite obfuscate_script_no_key in Hex by exact Hkey.
  cbn [result ret snd] in Hex. injection Hex as <-.
  apply package_download in Hpk. destruct Hpk as [Henc _].
  assert (Hbody : utf8_encode (snd (incoming file script)) = Some body).
  { cbn [encode] in Henc.
    destruct (utf8_encode (snd (incoming file script)));
      [now injection Henc as ->|discriminate]. }
  apply utf8_encode_length in Hbody.
  destruct file as [f|]; cbn [incoming snd] in Hbody.
  - rewrite Hbody. now apply (decode_size_bounded (List.length (read f))).
  - intros pasted ->. destruct Hin as [H|H]; [congruence|].
    destruct pasted as [|c s]; [discriminate H|].
    cbn [or_else] in Hbody. rewrite Hbody. apply utf8_size_bounds.
Qed.

Lemma served_size_bound_witness :
  (List.length [x41; xef; xbf; xbd; x42]
   <= 3 * List.length (read Worlds.mixed))%nat.
Proof.
  assert (R : result (obfuscate Sample.ascii_runtime None Sample.HOOK
                        Sample.healthy (Some Worlds.mixed) None None)
              = inr (StreamingResponse [x41; xef; xbf; xbd; x42]
                       (lit "text/plain")
                       [(lit "Content-Disposition",
                         lit "attachment; filename=" ++ QUOTE
                         ++ lit "obfuscated_m.lua" ++ QUOTE)]))
    by (vm_compute; reflexivity).
  exact (served_size_bound Sample.ascii_runtime None Sample.HOOK
           Sample.healthy (Some Worlds.mixed) None None _ _ _ eq_refl R).
Defined.

(** ** More on the name of the download *)

(** X12. Where [str.lower] lowercases an ASCII suffix as ASCII, the download
    name is never empty and its lowercased form always ends in ".lua" or
    ".txt", whatever name was requested and whatever the source name. *)
Theorem out_name_always_suffixed rt requested source :
  lower_ascii_suffix rt ->
  out_name rt requested source <> []
  /\ endswith (lower rt (out_name rt requested source)) (lit ".lua")
     || endswith (lower rt (out_name rt requested source)) (lit ".txt")
     = true.
Proof.
  intros Hlow. unfold out_name.
  set (base := or_else requested (lit "obfuscated_" ++ source)).
  assert (Hb : base <> []) by (apply or_else_not_empty; discriminate).
  destruct (endswith (lower rt base) (lit ".lua")
            || endswith (lower rt base) (lit ".txt")) eqn:E; cbn [negb].
  - now split.
  - split; [destruct base; [congruence|discriminate]|].
    apply known_suffix_detected; [exact Hlow|now left].
Qed.

Lemma out_name_always_suffixed_witness :
  out_name Sample.ascii_runtime (Some (lit "Out.Tx")) (lit "a.lua") <> []
  /\ endswith (lower Sample.ascii_runtime
                 (out_name Sample.ascii_runtime (Some (lit "Out.Tx"))
                    (lit "a.lua"))) (lit ".lua")
     || endswith (lower Sample.ascii_runtime
                    (out_name Sample.ascii_runtime (Some (lit "Out.Tx"))
                       (lit "a.lua"))) (lit ".txt")
     = true.
Proof.
  exact (out_name_always_suffixed Sample.ascii_runtime (Some (lit "Out.Tx"))
           (lit "a.lua") ascii_runtime_lower).
Defined.

(** X13. A pasted text with no requested name is served as
    "obfuscated_pasted_script.lua": the response is the download under that
    name whenever what the exchange returned can be encoded. *)
Theorem pasted_default_name rt key url w script requested :
  lower_ascii_suffix rt ->
  truthy_str script = true ->
  truthy_str requested = false ->
  exists obfuscated,
    result (obfuscate_script key w (the_session w) (or_else script []))
    = inr obfuscated
    /\ result (obfuscate rt key url w None script requested)
       = inr (match encode obfuscated with
              | inr buf =>
                  StreamingResponse buf (lit "text/plain")
                    [(lit "Content-Disposition",
                      lit "attachment; filename=" ++ QUOTE
                      ++ lit "obfuscated_pasted_script.lua" ++ QUOTE)]
              | inl e => error_page rt e
              end).
Proof.
  intros Hlow Hs Hreq.
  destruct (obfuscate_run rt key url w None script requested)
    as [obfuscated [Hex Hrun]]; [now right|].
  exists obfuscated. split; [exact Hex|].
  rewrite Hrun. cbn [result snd incoming fst]. unfold package.
  pose proof (out_name_default_lua rt requested (lit "pasted_script")
                Hlow Hreq) as Hout.
  change (lit "pasted_script" ++ lit ".lua")
    with (lit "pasted_script.lua") in Hout.
  rewrite Hout. destruct (encode obfuscated); reflexivity.
Qed.

Lemma pasted_default_name_witness :
  exists obfuscated,
    result (obfuscate Sample.ascii_runtime None None Sample.offline None
              (Some (lit "x=1")) None)
    = inr (match encode obfuscated with
           | inr buf =>
               StreamingResponse buf (lit "text/plain")
                 [(lit "Content-Disposition",
                   lit "attachment; filename=" ++ QUOTE
                   ++ lit "obfuscated_pasted_script.lua" ++ QUOTE)]
           | inl e => error_page Sample.ascii_runtime e
           end).
Proof.
  destruct (pasted_default_name Sample.ascii_runtime None None Sample.offline
              (Some (lit "x=1")) None ascii_runtime_lower eq_refl eq_refl)
    as [obfuscated [_ H]].
  exists obfuscated. exact H.
Defined.

(** ** Where the key goes *)

Lemma In_posts t r : In r (posts t) -> exists s, In (Post s r) t.
Proof.
  induction t as [|e t IH]; cbn [posts]; [intros []|].
  destruct e as [s|s r'|s].
  - intros H. destruct (IH H) as [s' Hs]. exists s'. now right.
  - intros [->|H]; [exists s; now left|].
    destruct (IH H) as [s' Hs]. exists s'. now right.
  - intros H. destruct (IH H) as [s' Hs]. exists s'. now right.
Qed.

Lemma send_to_webhook_trace rt url w session name content :
  trace (send_to_webhook rt url w session name content) = []
  \/ exists target raw,
       trace (send_to_webhook rt url w session name content)
       = [Post session (webhook_request rt target name raw)].
Proof.
  destruct url as [[|c target]|].
  - left. reflexivity.
  - destruct (utf8_encode content) as [raw|] eqn:Henc.
    + right. exists (c :: target), raw.
      apply send_to_webhook_sends; [reflexivity|discriminate|exact Henc].
    + left. unfold send_to_webhook. cbn [truthy_str negb].
      rewrite try_except_ret. cbn [trace fst]. rewrite bind_lift.
      cbn [encode]. now rewrite Henc.
  - left. reflexivity.
Qed.

(** X14. Every request of a submission is either the webhook's form, sent
    without any header (so without the key), or a request to one of the two
    fixed obfuscator endpoints, with the 25-unit timeout and the configured
    key as its "apikey" header. *)
Theorem key_only_to_obfuscator rt key url w file script filename r :
  In r (posts (trace (obfuscate rt key url w file script filename))) ->
  (headers r = [] /\ exists fields, body r = FormData fields)
  \/ ((Http.url r = NEWSCRIPT_URL \/ Http.url r = OBFUSCATE_URL)
      /\ timeout r = Some 25
      /\ lookup (lit "apikey") (headers r) = Some (VStr (or_else key []))).
Proof.
  intros Hin.
  destruct (handled_or_not file script) as [[-> Hs]|Hh].
  { rewrite obfuscate_no_input in Hin by exact Hs. destruct Hin. }
  destruct (obfuscate_run rt key url w file script filename Hh)
    as [o [_ Hrun]].
  rewrite Hrun in Hin. cbn [trace fst posts] in Hin.
  rewrite !posts_app in Hin. cbn [posts] in Hin. rewrite app_nil_r in Hin.
  apply in_app_or in Hin. destruct Hin as [Hin|Hin].
  - left.
    destruct (send_to_webhook_trace rt url w (the_session w)
                (fst (incoming file script)) (snd (incoming file script)))
      as [E|[target [raw E]]]; rewrite E in Hin; cbn [posts] in Hin.
    + destruct Hin.
    + destruct Hin as [<-|[]]. split; [reflexivity|]. now eexists.
  - right. apply In_posts in Hin. destruct Hin as [s Hin].
    destruct (obfuscate_script_events key w (the_session w)
                (snd (incoming file script))) as [Hev _].
    rewrite Forall_forall in Hev. apply Hev in Hin.
    destruct Hin as [r' [Heq [[sc ->]|[sid ->]]]]; injection Heq as _ ->;
      (split; [|split; reflexivity]).
    + now left.
    + now right.
Qed.

Lemma key_only_to_obfuscator_witness :
  Http.url (newscript_request Sample.KEY Sample.print_hi) = NEWSCRIPT_URL
  /\ lookup (lit "apikey")
       (headers (newscript_request Sample.KEY Sample.print_hi))
     = Some (VStr (lit "secret")).
Proof.
  assert (I : In (newscript_request Sample.KEY Sample.print_hi)
                (posts (trace (obfuscate Sample.ascii_runtime Sample.KEY
                                 Sample.HOOK Sample.healthy
                                 (Some Sample.test_lua) None None)))).
  { vm_compute. right. left. reflexivity. }
  destruct (key_only_to_obfuscator Sample.ascii_runtime Sample.KEY
              Sample.HOOK Sample.healthy (Some Sample.test_lua) None None
              _ I) as [[H _]|[_ [_ H]]].
  - discriminate H.
  - split; [reflexivity|exact H].
Defined.

(** X15. [obfuscate_script] makes no request at all exactly when no key is
    configured (unset or empty); with a key, the first thing it does is post
    the script to the session-creation endpoint. *)
Theorem exchange_skipped_iff key w session script :
  (trace (obfuscate_script key w session script) = []
   <-> truthy_str key = false)
  /\ (truthy_str key = true ->
      exists rest,
        trace (obfuscate_script key w session script)
        = Post session (newscript_request key script) :: rest
        /\ body (newscript_request key script) = Data script).
Proof.
  rewrite obfuscate_script_run. unfold obfuscate_script_tree.
  destruct (truthy_str key); cbn [negb].
  - split.
    + split; [|discriminate].
      repeat match goal with
             | |- context [match ?x with _ => _ end] => destruct x
             end; cbn; discriminate.
    + intros _.
      repeat match goal with
             | |- context [match ?x with _ => _ end] => destruct x
             end; cbn [trace fst]; eexists; split; reflexivity.
  - split; [now split|discriminate].
Qed.

Lemma exchange_skipped_iff_witness :
  trace (obfuscate_script (Some []) Sample.healthy
           (the_session Sample.healthy) (lit "x=1")) = []
  /\ exists rest,
       trace (obfuscate_script Sample.KEY Sample.offline
                (the_session Sample.offline) (lit "x=1"))
       = Post (the_session Sample.offline)
           (newscript_request Sample.KEY (lit "x=1")) :: rest.
Proof.
  split.
  - apply (proj2 (proj1 (exchange_skipped_iff (Some []) Sample.healthy
                           (the_session Sample.healthy) (lit "x=1")))).
    reflexivity.
  - destruct (proj2 (exchange_skipped_iff Sample.KEY Sample.offline
                       (the_session Sample.offline) (lit "x=1")) eq_refl)
      as [rest [H _]].
    exists rest. exact H.
Defined.
